(** * The widget output renderer of jupyterlab-manager

    A shallow embedding of [packages/jupyterlab-manager/src/renderer.ts]
    (class [WidgetRenderer]) and the properties of its render / retry /
    dispose protocol.

    The class is glue between two collaborators that live outside the
    repository: the Lumino [Panel] base class (a DOM node with text, a
    class list, a visibility flag and a list of child widgets) and the
    [WidgetManager] (asynchronous [get_model] / [display_model], the
    [restoredStatus] flag and the [restored] signal).  Both are modelled
    by what the renderer observes of them:

    - the panel is a record of the node state the renderer writes;
    - a manager is a reference; what its promises settle to is given by an
      environment, which may differ from one render to the next;
    - [await] is a suspension point: [renderModel] is cut at its three
      awaits into segments, each a state transformer that returns the
      task the render is left in. *)

From stdpp Require Import base strings list gmap functions.

Open Scope string_scope.
Open Scope list_scope.

(** ** Values the renderer handles *)

(** A JavaScript object reference: the payload stored in a mime bundle is
    a shared, mutable object, so it lives in a store and is named by its
    address. *)
Definition loc := nat.

(** Opaque handles to the collaborators' objects. *)
Definition ManagerRef := nat.
Definition WidgetModel := nat.
Definition Widget := nat.

(** What a promise rejects with, or what a statement throws. *)
Inductive Error :=
  | TypeError (expression : string)
  | Thrown (reason : string).

(** The settled state of a promise returned by the manager. *)
Inductive Settled (A : Type) :=
  | Fulfils (value : A)
  | Rejects (err : Error).
Arguments Fulfils {A} value.
Arguments Rejects {A} err.

(** The part of [WidgetManager] the renderer consumes. *)
Record WidgetManager := {
  get_model : string → Settled WidgetModel;
  restoredStatus : bool;
  display_model : WidgetModel → Settled Widget
}.

(** What each manager reference does at a given moment. *)
Definition Env := ManagerRef → WidgetManager.

(** The widget-view payload [model.data[mimeType]]: a JSON object with a
    [model_id] field. *)
Record ViewData := { model_id : string }.

(** [IRenderMime.IMimeModel]: [data] maps a mime type to its payload; a
    missing key reads as [undefined]. *)
Record IMimeModel := { data : gmap string loc }.

(** [PromiseDelegate<WidgetManager>]: a promise with its [resolve]
    exposed.  Resolving a settled promise does nothing. *)
Inductive PromiseDelegate :=
  | Pending
  | Fulfilled (value : ManagerRef).

Definition resolve (value : ManagerRef) (p : PromiseDelegate) : PromiseDelegate :=
  match p with
  | Pending => Fulfilled value
  | Fulfilled _ => p
  end.

(** ** The adapter *)

(** State inherited from [Panel]. *)
Record Panel := {
  textContent : string;
  classList : list string;
  isHidden : bool;
  widgets : list Widget;
  baseDisposed : bool
}.

(** Fields of [WidgetRenderer]; [None] is [null]. *)
Record WidgetRenderer := {
  mimeType : string;
  _manager : option PromiseDelegate;
  _rerenderMimeModel : option IMimeModel;
  panel : Panel
}.

(** Calls made on a manager. *)
Inductive ManagerCall :=
  | CallGetModel (mg : ManagerRef) (id : string)
  | CallDisplayModel (mg : ManagerRef) (wModel : WidgetModel).

(** The adapter together with everything it shares with its surroundings:
    the object store, the console, the calls it made on managers, and the
    signal connections it made. *)
Record World := {
  this : WidgetRenderer;
  store : loc → ViewData;
  console : list Error;
  calls : list ManagerCall;
  restoredSlots : list ManagerRef;
  disposedSlots : list (Widget * loc)
}.

(** *** Field updates *)

Definition with_this (f : WidgetRenderer → WidgetRenderer) (w : World) : World :=
  {| this := f (this w); store := store w; console := console w;
     calls := calls w; restoredSlots := restoredSlots w;
     disposedSlots := disposedSlots w |}.

Definition with_panel (f : Panel → Panel) : World → World :=
  with_this (λ r, {| mimeType := mimeType r; _manager := _manager r;
                     _rerenderMimeModel := _rerenderMimeModel r;
                     panel := f (panel r) |}).

Definition set_manager_field (m : option PromiseDelegate) : World → World :=
  with_this (λ r, {| mimeType := mimeType r; _manager := m;
                     _rerenderMimeModel := _rerenderMimeModel r;
                     panel := panel r |}).

Definition set_rerenderMimeModel (m : option IMimeModel) : World → World :=
  with_this (λ r, {| mimeType := mimeType r; _manager := _manager r;
                     _rerenderMimeModel := m; panel := panel r |}).

(** [this.node.textContent = s] *)
Definition set_textContent (s : string) : World → World :=
  with_panel (λ p, {| textContent := s; classList := classList p;
                      isHidden := isHidden p; widgets := widgets p;
                      baseDisposed := baseDisposed p |}).

Definition class_add (c : string) (cl : list string) : list string :=
  if bool_decide (c ∈ cl) then cl else cl ++ [c].

Definition class_remove (c : string) (cl : list string) : list string :=
  filter (λ x, x ≠ c) cl.

(** [this.addClass(c)] *)
Definition addClass (c : string) : World → World :=
  with_panel (λ p, {| textContent := textContent p;
                      classList := class_add c (classList p);
                      isHidden := isHidden p; widgets := widgets p;
                      baseDisposed := baseDisposed p |}).

(** [this.removeClass(c)] *)
Definition removeClass (c : string) : World → World :=
  with_panel (λ p, {| textContent := textContent p;
                      classList := class_remove c (classList p);
                      isHidden := isHidden p; widgets := widgets p;
                      baseDisposed := baseDisposed p |}).

(** [this.hide()] *)
Definition hide : World → World :=
  with_panel (λ p, {| textContent := textContent p; classList := classList p;
                      isHidden := true; widgets := widgets p;
                      baseDisposed := baseDisposed p |}).

(** [this.addWidget(v)] *)
Definition addWidget (v : Widget) : World → World :=
  with_panel (λ p, {| textContent := textContent p; classList := classList p;
                      isHidden := isHidden p; widgets := widgets p ++ [v];
                      baseDisposed := baseDisposed p |}).

(** [super.dispose()]: the base class marks the widget as disposed and
    drops the signal connections it is the receiver of. *)
Definition super_dispose (w : World) : World :=
  let w := with_panel (λ p, {| textContent := textContent p;
                               classList := classList p;
                               isHidden := isHidden p; widgets := widgets p;
                               baseDisposed := true |}) w in
  {| this := this w; store := store w; console := console w;
     calls := calls w; restoredSlots := []; disposedSlots := disposedSlots w |}.

(** [console.error(err)] *)
Definition console_error (err : Error) (w : World) : World :=
  {| this := this w; store := store w; console := console w ++ [err];
     calls := calls w; restoredSlots := restoredSlots w;
     disposedSlots := disposedSlots w |}.

Definition record_call (c : ManagerCall) (w : World) : World :=
  {| this := this w; store := store w; console := console w;
     calls := calls w ++ [c]; restoredSlots := restoredSlots w;
     disposedSlots := disposedSlots w |}.

(** [value.restored.connect(this._rerender, this)].  A signal holds a pair
    of slot and receiver at most once, and [this._rerender] is the same
    method at every call: connecting to a manager the adapter is already
    connected to adds nothing. *)
Definition connect_restored (value : ManagerRef) (w : World) : World :=
  {| this := this w; store := store w; console := console w;
     calls := calls w;
     restoredSlots := if bool_decide (value ∈ restoredSlots w)
                      then restoredSlots w
                      else restoredSlots w ++ [value];
     disposedSlots := disposedSlots w |}.

(** [widget.disposed.connect(() => { this.hide(); source.model_id = ''; })]:
    the closure captures the payload object [source]. *)
Definition connect_disposed (widget : Widget) (source : loc) (w : World) : World :=
  {| this := this w; store := store w; console := console w;
     calls := calls w; restoredSlots := restoredSlots w;
     disposedSlots := disposedSlots w ++ [(widget, source)] |}.

(** [source.model_id = id] *)
Definition set_model_id (source : loc) (id : string) (w : World) : World :=
  {| this := this w; store := <[source := {| model_id := id |}]> (store w);
     console := console w; calls := calls w;
     restoredSlots := restoredSlots w; disposedSlots := disposedSlots w |}.

(** ** [renderModel] *)

(** Where a call of [renderModel] stands: suspended at one of its three
    awaits, or settled. *)
Inductive Task :=
  | AwaitManager (model : IMimeModel) (source : option loc)
  | AwaitGetModel (mg : ManagerRef) (model : IMimeModel) (source : loc) (id : string)
  | AwaitDisplayModel (mg : ManagerRef) (model : IMimeModel) (source : loc)
                      (wModel : WidgetModel)
  | Resolved
  | Rejected (err : Error).

(** Lines 47-53: up to [await this._manager.promise]. *)
Definition renderModel_begin (model : IMimeModel) (w : World) : World * Task :=
  let source := data model !! mimeType (this w) in
  let w := set_textContent "Loading widget..." w in
  let w := addClass "jupyter-widgets" w in
  match _manager (this w) with
  | None => (w, Rejected (TypeError "this._manager.promise"))
  | Some _ => (w, AwaitManager model source)
  end.

(** Lines 53-62: the manager has arrived; up to [await manager.get_model]. *)
Definition after_manager (mg : ManagerRef) (model : IMimeModel)
    (source : option loc) (w : World) : World * Task :=
  match source with
  | None => (w, Rejected (TypeError "source.model_id"))
  | Some src =>
      let id := model_id (store w src) in
      if bool_decide (id = "") then (hide w, Resolved)
      else (record_call (CallGetModel mg id) w, AwaitGetModel mg model src id)
  end.

(** Lines 62-82: [get_model] has settled; up to [await manager.display_model]. *)
Definition after_get_model (mg : ManagerRef) (model : IMimeModel) (src : loc)
    (outcome : Settled WidgetModel) (restored : bool) (w : World) : World * Task :=
  match outcome with
  | Rejects err =>
      if restored then
        let w := set_textContent "Error displaying widget: model not found" w in
        let w := addClass "jupyter-widgets" w in
        let w := console_error err w in
        (w, Resolved)
      else
        (set_rerenderMimeModel (Some model) w, Resolved)
  | Fulfils wModel =>
      let w := set_rerenderMimeModel None w in
      (record_call (CallDisplayModel mg wModel) w,
       AwaitDisplayModel mg model src wModel)
  end.

(** Lines 82-101: [display_model] has settled. *)
Definition after_display_model (src : loc) (outcome : Settled Widget)
    (w : World) : World * Task :=
  match outcome with
  | Rejects err =>
      let w := set_textContent "Error displaying widget" w in
      let w := addClass "jupyter-widgets" w in
      let w := console_error err w in
      (w, Resolved)
  | Fulfils widget =>
      let w := set_textContent "" w in
      let w := addWidget widget w in
      let w := connect_disposed widget src w in
      (w, Resolved)
  end.

(** One resumption of a task.  A render suspended on the manager promise
    resumes only once the delegate is fulfilled; the promise it awaits is
    that of the delegate [_manager] refers to, the only one the adapter ever
    creates.  The promises of the manager are taken to settle: what they
    settle to is read from the environment. *)
Definition step (env : Env) (t : Task) (w : World) : World * Task :=
  match t with
  | AwaitManager model source =>
      match _manager (this w) with
      | Some (Fulfilled mg) => after_manager mg model source w
      | _ => (w, t)
      end
  | AwaitGetModel mg model src id =>
      after_get_model mg model src (get_model (env mg) id)
                      (restoredStatus (env mg)) w
  | AwaitDisplayModel mg model src wModel =>
      after_display_model src (display_model (env mg) wModel) w
  | Resolved | Rejected _ => (w, t)
  end.

(** A render has three awaits, so three resumptions carry it as far as it
    can go. *)
Definition run (env : Env) (t : Task) (w : World) : World * Task :=
  let '(w1, t1) := step env t w in
  let '(w2, t2) := step env t1 w1 in
  step env t2 w2.

(** [renderModel(model)] with nothing else interleaved. *)
Definition renderModel (env : Env) (model : IMimeModel) (w : World) : World * Task :=
  let '(w0, t0) := renderModel_begin model w in
  run env t0 w0.

(** ** The other members *)

(** [set manager(value)] *)
Definition set_manager (value : ManagerRef) (w : World) : World * option Error :=
  let w := connect_restored value w in
  match _manager (this w) with
  | None => (w, Some (TypeError "this._manager.resolve"))
  | Some p => (set_manager_field (Some (resolve value p)) w, None)
  end.

(** [get isDisposed()] *)
Definition isDisposed (w : World) : bool :=
  bool_decide (_manager (this w) = None).

(** [dispose()] *)
Definition dispose (w : World) : World :=
  if isDisposed w then w
  else set_manager_field None (super_dispose w).

(** [_rerender()]: the promise of the render it starts is dropped, so the
    render is returned as the task left after its synchronous part. *)
Definition _rerender (w : World) : World * option Task :=
  match _rerenderMimeModel (this w) with
  | Some model =>
      let w := set_textContent "" w in
      let w := removeClass "jupyter-widgets" w in
      let '(w, t) := renderModel_begin model w in
      (w, Some t)
  | None => (w, None)
  end.

(** The constructor.  Field initialisers run before its body. *)
Definition new_WidgetRenderer (options_mimeType : string)
    (manager : option ManagerRef) (objects : loc → ViewData) : World :=
  let w := {| this := {| mimeType := options_mimeType;
                         _manager := Some Pending;
                         _rerenderMimeModel := None;
                         panel := {| textContent := ""; classList := [];
                                     isHidden := false; widgets := [];
                                     baseDisposed := false |} |};
              store := objects; console := []; calls := [];
              restoredSlots := []; disposedSlots := [] |} in
  match manager with
  | Some value => fst (set_manager value w)
  | None => w
  end.

(** ** Signals reaching the adapter *)

(** One [restored] notification delivered to the adapter: the signal calls
    [_rerender], and the render it started, if any, then runs. *)
Definition restored_notified (env : Env) (w : World) : World * option Task :=
  match _rerender w with
  | (w1, Some t) => let '(w2, t2) := run env t w1 in (w2, Some t2)
  | (w1, None) => (w1, None)
  end.

(** The closure connected at lines 96-99. *)
Definition on_view_disposed (source : loc) (w : World) : World :=
  set_model_id source "" (hide w).

(** [widget.disposed] is emitted: every closure connected to it runs. *)
Definition emit_disposed (widget : Widget) (w : World) : World :=
  foldl (λ acc slot, if bool_decide (slot.1 = widget)
                     then on_view_disposed slot.2 acc else acc)
        w (disposedSlots w).

(** ** Histories *)

(** What can happen to an adapter, one event after the other. *)
Inductive Op :=
  | DoSetManager (value : ManagerRef)
  | DoRenderModel (env : Env) (model : IMimeModel)
  | DoRestored (env : Env)
  | DoViewDisposed (widget : Widget)
  | DoDispose.

Definition exec (w : World) (op : Op) : World :=
  match op with
  | DoSetManager value => fst (set_manager value w)
  | DoRenderModel env model => fst (renderModel env model w)
  | DoRestored env => fst (restored_notified env w)
  | DoViewDisposed widget => emit_disposed widget w
  | DoDispose => dispose w
  end.

Definition execs (ops : list Op) (w : World) : World := foldl exec w ops.

Definition is_dispose (op : Op) : bool :=
  match op with DoDispose => true | _ => false end.

Definition no_dispose (ops : list Op) : bool := forallb (λ op, negb (is_dispose op)) ops.

(** How many [get_model] queries a call log holds. *)
Definition is_get_model (c : ManagerCall) : bool :=
  match c with CallGetModel _ _ => true | CallDisplayModel _ _ => false end.

Definition get_model_calls (l : list ManagerCall) : nat :=
  length (filter (λ c, is_get_model c = true) l).

(** The bundles a history passes to [renderModel]. *)
Definition rendered (ops : list Op) : list IMimeModel :=
  omap (λ op, match op with
              | DoRenderModel _ model => Some model
              | _ => None
              end) ops.

(** ** Concrete adapters, bundles and managers *)

Module Fixtures.

Definition widget_view : string := "application/vnd.jupyter.widget-view+json".

(** Object 0 is the payload of a live view, object 1 that of a view
    already torn down, every other object names model m2. *)
Definition objects : loc → ViewData :=
  λ l, match l with
       | 0 => {| model_id := "m1" |}
       | 1 => {| model_id := "" |}
       | _ => {| model_id := "m2" |}
       end.

Definition bundle (source : loc) : IMimeModel :=
  {| data := {[ widget_view := source ]} |}.

Definition no_entry : IMimeModel := {| data := ∅ |}.

Definition not_found : Error := Thrown "widget model not found".
Definition no_view : Error := Thrown "could not create view".

(** Restoration finished, every model known, every view constructible. *)
Definition ready : Env :=
  λ _, {| get_model := λ _, Fulfils 7; restoredStatus := true;
          display_model := λ _, Fulfils 9 |}.

(** Restoration still under way: no model is known yet. *)
Definition restoring : Env :=
  λ _, {| get_model := λ _, Rejects not_found; restoredStatus := false;
          display_model := λ _, Fulfils 9 |}.

(** Restoration finished and the model is not there. *)
Definition restored_missing : Env :=
  λ _, {| get_model := λ _, Rejects not_found; restoredStatus := true;
          display_model := λ _, Fulfils 9 |}.

(** The model is known but its view cannot be built. *)
Definition broken_view : Env :=
  λ _, {| get_model := λ _, Fulfils 7; restoredStatus := true;
          display_model := λ _, Rejects no_view |}.

Definition bound : World := new_WidgetRenderer widget_view (Some 0) objects.
Definition unbound : World := new_WidgetRenderer widget_view None objects.

End Fixtures.

(** * Properties *)

(** ** Frame facts about the segments *)

Lemma class_add_elem (c : string) (cl : list string) : c ∈ class_add c cl.
Proof.
  unfold class_add. case_bool_decide as Hin; [exact Hin |].
  apply elem_of_app. right. apply list_elem_of_singleton. reflexivity.
Qed.

(** After a [connect] the adapter is connected. *)
Lemma connect_restored_elem (value : ManagerRef) (w : World) :
  value ∈ restoredSlots (connect_restored value w).
Proof.
  cbn [restoredSlots connect_restored]. case_bool_decide as Hin; [exact Hin |].
  apply elem_of_app. right. apply list_elem_of_singleton. reflexivity.
Qed.

(** A [connect] drops no connection. *)
Lemma connect_restored_mono (value mg : ManagerRef) (w : World) :
  mg ∈ restoredSlots w → mg ∈ restoredSlots (connect_restored value w).
Proof.
  intros Hin. cbn [restoredSlots connect_restored].
  case_bool_decide; [exact Hin |]. apply elem_of_app. left. exact Hin.
Qed.

(** The setter's effect on the connections is that of its [connect],
    whether or not it then throws. *)
Lemma set_manager_slots (value : ManagerRef) (w : World) :
  restoredSlots (fst (set_manager value w))
    = restoredSlots (connect_restored value w).
Proof.
  unfold set_manager. cbn [_manager this connect_restored].
  destruct (_manager (this w)); reflexivity.
Qed.

Lemma begin_manager (model : IMimeModel) (w : World) :
  _manager (this (fst (renderModel_begin model w))) = _manager (this w).
Proof.
  unfold renderModel_begin. cbn.
  destruct (_manager (this w)) eqn:E; cbn; exact E.
Qed.

Lemma begin_live (model : IMimeModel) (w : World) (p : PromiseDelegate) :
  _manager (this w) = Some p →
  renderModel_begin model w =
    (addClass "jupyter-widgets" (set_textContent "Loading widget..." w),
     AwaitManager model (data model !! mimeType (this w))).
Proof. intros Hm. unfold renderModel_begin. cbn. rewrite Hm. reflexivity. Qed.

Lemma begin_disposed (model : IMimeModel) (w : World) :
  _manager (this w) = None →
  snd (renderModel_begin model w) = Rejected (TypeError "this._manager.promise").
Proof. intros Hm. unfold renderModel_begin. cbn. rewrite Hm. reflexivity. Qed.

(** A settled task stays as it is. *)
Lemma step_Resolved (env : Env) (w : World) : step env Resolved w = (w, Resolved).
Proof. reflexivity. Qed.

Lemma step_manager_fulfilled (env : Env) (model : IMimeModel)
    (source : option loc) (w : World) (mg : ManagerRef) :
  _manager (this w) = Some (Fulfilled mg) →
  step env (AwaitManager model source) w = after_manager mg model source w.
Proof. intros Hm. unfold step. rewrite Hm. reflexivity. Qed.

Lemma step_manager_pending (env : Env) (model : IMimeModel)
    (source : option loc) (w : World) :
  _manager (this w) = Some Pending →
  step env (AwaitManager model source) w = (w, AwaitManager model source).
Proof. intros Hm. unfold step. rewrite Hm. reflexivity. Qed.

(** With the manager bound, a render goes through the manager await at
    once. *)
Lemma renderModel_bound (env : Env) (model : IMimeModel) (w : World) (mg : ManagerRef) :
  _manager (this w) = Some (Fulfilled mg) →
  renderModel env model w =
    let w0 := addClass "jupyter-widgets" (set_textContent "Loading widget..." w) in
    let '(w1, t1) := after_manager mg model (data model !! mimeType (this w)) w0 in
    let '(w2, t2) := step env t1 w1 in
    step env t2 w2.
Proof.
  intros Hm. unfold renderModel. rewrite (begin_live _ _ _ Hm).
  unfold run. rewrite (step_manager_fulfilled _ _ _ _ mg) by exact Hm.
  reflexivity.
Qed.

(** Without a manager, a render stops at the manager await. *)
Lemma renderModel_pending (env : Env) (model : IMimeModel) (w : World) :
  _manager (this w) = Some Pending →
  renderModel env model w =
    (addClass "jupyter-widgets" (set_textContent "Loading widget..." w),
     AwaitManager model (data model !! mimeType (this w))).
Proof.
  intros Hm. unfold renderModel. rewrite (begin_live _ _ _ Hm).
  unfold run. do 3 (rewrite step_manager_pending by exact Hm; cbv beta iota).
  reflexivity.
Qed.

(** What the setter does to a live adapter. *)
Lemma set_manager_live (value : ManagerRef) (w : World) (p : PromiseDelegate) :
  _manager (this w) = Some p →
  set_manager value w =
    (set_manager_field (Some (resolve value p)) (connect_restored value w), None).
Proof. intros Hm. unfold set_manager. cbn [_manager this connect_restored]. rewrite Hm. reflexivity. Qed.

(** Binding a manager lets a suspended render through the manager await. *)
Lemma run_after_binding (env : Env) (model : IMimeModel) (source : option loc)
    (w : World) (value : ManagerRef) :
  _manager (this w) = Some Pending →
  run env (AwaitManager model source) (fst (set_manager value w)) =
    let w0 := set_manager_field (Some (Fulfilled value)) (connect_restored value w) in
    let '(w1, t1) := after_manager value model source w0 in
    let '(w2, t2) := step env t1 w1 in
    step env t2 w2.
Proof.
  intros Hm. rewrite (set_manager_live _ _ _ Hm). cbn [fst resolve].
  unfold run. rewrite (step_manager_fulfilled _ _ _ _ value) by reflexivity.
  reflexivity.
Qed.

(** ** The empty model id *)

(** C4: a bundle whose [model_id] is the empty string is rendered by hiding
    the container; the render completes and no manager query is made.  On an
    adapter whose manager is not bound yet the render waits for the manager
    and then does the same. *)
Theorem empty_model_id_hides_without_queries
    (env : Env) (model : IMimeModel) (w : World) (p : PromiseDelegate) (src : loc) :
  _manager (this w) = Some p →
  data model !! mimeType (this w) = Some src →
  model_id (store w src) = "" →
  match p with
  | Fulfilled _ =>
      let '(w', t) := renderModel env model w in
      t = Resolved ∧ isHidden (panel (this w')) = true ∧ calls w' = calls w
  | Pending =>
      let '(w0, t0) := renderModel env model w in
      t0 = AwaitManager model (Some src) ∧ calls w0 = calls w ∧
      ∀ (value : ManagerRef) (env' : Env),
        let '(w', t) := run env' t0 (fst (set_manager value w0)) in
        t = Resolved ∧ isHidden (panel (this w')) = true ∧ calls w' = calls w
  end.
Proof.
  intros Hm Hsrc Hid. destruct p as [|mg].
  - rewrite (renderModel_pending _ _ _ Hm), Hsrc.
    split; [reflexivity | split; [reflexivity |]].
    intros value env'. rewrite run_after_binding by exact Hm.
    unfold after_manager.
    change (model_id (store w src) = "") in Hid.
    cbv zeta.
    change (store (set_manager_field _ (connect_restored value
              (addClass _ (set_textContent _ w)))) src) with (store w src).
    rewrite Hid. rewrite bool_decide_eq_true_2 by reflexivity.
    cbv beta iota. rewrite step_Resolved. cbv beta iota. rewrite step_Resolved.
    auto.
  - rewrite (renderModel_bound _ _ _ _ Hm), Hsrc.
    unfold after_manager. cbv zeta.
    change (store (addClass _ (set_textContent _ w)) src) with (store w src).
    rewrite Hid. rewrite bool_decide_eq_true_2 by reflexivity.
    cbv beta iota. rewrite step_Resolved. cbv beta iota. rewrite step_Resolved.
    auto.
Qed.

(** C10: on the empty-id path the placeholder set at the start of the render
    stays: the text is still the loading text, the class marker is still
    there, and the world differs from the one left by the start of the
    render in the visibility flag only. *)
Theorem empty_model_id_keeps_placeholder
    (env : Env) (model : IMimeModel) (w : World) (p : PromiseDelegate) (src : loc) :
  _manager (this w) = Some p →
  data model !! mimeType (this w) = Some src →
  model_id (store w src) = "" →
  let loading := fst (renderModel_begin model w) in
  match p with
  | Fulfilled _ =>
      let w' := fst (renderModel env model w) in
      w' = hide loading ∧
      textContent (panel (this w')) = "Loading widget..." ∧
      "jupyter-widgets" ∈ classList (panel (this w'))
  | Pending =>
      ∀ (value : ManagerRef) (env' : Env),
        let '(w0, t0) := renderModel env model w in
        let w' := fst (run env' t0 (fst (set_manager value w0))) in
        w' = hide (fst (set_manager value loading)) ∧
        textContent (panel (this w')) = "Loading widget..." ∧
        "jupyter-widgets" ∈ classList (panel (this w'))
  end.
Proof.
  intros Hm Hsrc Hid loading. subst loading.
  rewrite (begin_live _ _ _ Hm). cbn [fst].
  destruct p as [|mg].
  - intros value env'. rewrite (renderModel_pending _ _ _ Hm), Hsrc.
    rewrite run_after_binding by exact Hm.
    rewrite (set_manager_live _ _ Pending) by exact Hm. cbn [fst resolve].
    unfold after_manager. cbv zeta.
    change (store (set_manager_field _ (connect_restored value
              (addClass _ (set_textContent _ w)))) src) with (store w src).
    rewrite Hid. rewrite bool_decide_eq_true_2 by reflexivity.
    cbv beta iota. rewrite step_Resolved. cbv beta iota. rewrite step_Resolved.
    cbn [fst]. split; [reflexivity | split; [reflexivity |]].
    apply class_add_elem.
  - rewrite (renderModel_bound _ _ _ _ Hm), Hsrc.
    unfold after_manager. cbv zeta.
    change (store (addClass _ (set_textContent _ w)) src) with (store w src).
    rewrite Hid. rewrite bool_decide_eq_true_2 by reflexivity.
    cbv beta iota. rewrite step_Resolved. cbv beta iota. rewrite step_Resolved.
    cbn [fst]. split; [reflexivity | split; [reflexivity |]].
    apply class_add_elem.
Qed.

(** ** Completion of a render *)

(** Once past the manager await with a payload object in hand, a render
    settles as resolved, whatever the manager answers. *)
Lemma segments_resolve (env : Env) (mg : ManagerRef) (model : IMimeModel)
    (src : loc) (w0 : World) :
  (let '(w1, t1) := after_manager mg model (Some src) w0 in
   let '(w2, t2) := step env t1 w1 in
   snd (step env t2 w2)) = Resolved.
Proof.
  unfold after_manager. case_bool_decide as Hid; cbv beta iota zeta.
  - reflexivity.
  - unfold step at 1, after_get_model.
    destruct (get_model (env mg) _) as [wModel|err].
    + cbv beta iota zeta. unfold step, after_display_model.
      destruct (display_model (env mg) wModel); reflexivity.
    + destruct (restoredStatus (env mg)); reflexivity.
Qed.

(** C1, as the code has it: a render of a bundle that has an entry under the
    adapter's mime type, on an adapter that was not disposed, never rejects.
    With the manager bound it completes successfully whatever [get_model]
    and [display_model] answer; without a manager it stays suspended, and
    completes successfully once a manager is bound. *)
Theorem renderModel_never_rejects
    (env : Env) (model : IMimeModel) (w : World) (p : PromiseDelegate) (src : loc) :
  _manager (this w) = Some p →
  data model !! mimeType (this w) = Some src →
  match p with
  | Fulfilled _ => snd (renderModel env model w) = Resolved
  | Pending =>
      let '(w0, t0) := renderModel env model w in
      t0 = AwaitManager model (Some src) ∧
      ∀ (value : ManagerRef) (env' : Env),
        snd (run env' t0 (fst (set_manager value w0))) = Resolved
  end.
Proof.
  intros Hm Hsrc. destruct p as [|mg].
  - rewrite (renderModel_pending _ _ _ Hm), Hsrc. split; [reflexivity |].
    intros value env'. rewrite run_after_binding by exact Hm. cbv zeta.
    pose proof (segments_resolve env' value model src
      (set_manager_field (Some (Fulfilled value))
         (connect_restored value
            (addClass "jupyter-widgets" (set_textContent "Loading widget..." w)))))
      as H.
    destruct (after_manager _ _ _ _) as [w1 t1].
    destruct (step env' t1 w1) as [w2 t2]. exact H.
  - rewrite (renderModel_bound _ _ _ _ Hm), Hsrc. cbv zeta.
    pose proof (segments_resolve env mg model src
      (addClass "jupyter-widgets" (set_textContent "Loading widget..." w))) as H.
    destruct (after_manager _ _ _ _) as [w1 t1].
    destruct (step env t1 w1) as [w2 t2]. exact H.
Qed.

(** C1, as stated, fails: a bundle with no entry under the adapter's mime
    type makes the render reject when it reads [source.model_id], and a
    render on a disposed adapter rejects when it reads
    [this._manager.promise]. *)
Lemma renderModel_rejects :
  snd (renderModel Fixtures.ready Fixtures.no_entry Fixtures.bound)
    = Rejected (TypeError "source.model_id") ∧
  snd (renderModel Fixtures.ready (Fixtures.bundle 0) (dispose Fixtures.bound))
    = Rejected (TypeError "this._manager.promise").
Proof. split; vm_compute; reflexivity. Qed.

Lemma renderModel_never_rejects_witness :
  snd (renderModel Fixtures.restored_missing (Fixtures.bundle 0) Fixtures.bound)
    = Resolved.
Proof.
  apply (renderModel_never_rejects Fixtures.restored_missing (Fixtures.bundle 0)
           Fixtures.bound (Fulfilled 0) 0); vm_compute; reflexivity.
Defined.

Lemma empty_model_id_hides_without_queries_witness :
  let '(w', t) := renderModel Fixtures.ready (Fixtures.bundle 1) Fixtures.bound in
  t = Resolved ∧ isHidden (panel (this w')) = true ∧ calls w' = calls Fixtures.bound.
Proof.
  apply (empty_model_id_hides_without_queries Fixtures.ready (Fixtures.bundle 1)
           Fixtures.bound (Fulfilled 0) 1); vm_compute; reflexivity.
Defined.

Lemma empty_model_id_keeps_placeholder_witness :
  let w' := fst (renderModel Fixtures.ready (Fixtures.bundle 1) Fixtures.bound) in
  w' = hide (fst (renderModel_begin (Fixtures.bundle 1) Fixtures.bound)) ∧
  textContent (panel (this w')) = "Loading widget..." ∧
  "jupyter-widgets" ∈ classList (panel (this w')).
Proof.
  apply (empty_model_id_keeps_placeholder Fixtures.ready (Fixtures.bundle 1)
           Fixtures.bound (Fulfilled 0) 1); vm_compute; reflexivity.
Defined.

(** ** The paths of a render on a bound adapter *)

Section BoundRender.

Variables (env : Env) (model : IMimeModel) (w : World).
Variables (mg : ManagerRef) (src : loc).

Hypothesis Hbound : _manager (this w) = Some (Fulfilled mg).
Hypothesis Hsource : data model !! mimeType (this w) = Some src.

(** The world once the placeholder is shown. *)
Let loading : World :=
  addClass "jupyter-widgets" (set_textContent "Loading widget..." w).

(** The world once [get_model] has been called. *)
Let asked : World :=
  record_call (CallGetModel mg (model_id (store w src))) loading.

(** The world in which [display_model] is awaited. *)
Let displaying (wModel : WidgetModel) : World :=
  record_call (CallDisplayModel mg wModel) (set_rerenderMimeModel None asked).

Lemma render_empty_id :
  model_id (store w src) = "" →
  renderModel env model w = (hide loading, Resolved).
Proof using Hbound Hsource.
  intros Hid. rewrite (renderModel_bound _ _ _ _ Hbound), Hsource.
  unfold after_manager. cbv zeta.
  change (store (addClass _ (set_textContent _ w)) src) with (store w src).
  rewrite Hid, bool_decide_eq_true_2 by reflexivity.
  reflexivity.
Qed.

Lemma render_asks_manager :
  model_id (store w src) ≠ "" →
  renderModel env model w =
    let '(w2, t2) :=
      after_get_model mg model src
        (get_model (env mg) (model_id (store w src)))
        (restoredStatus (env mg)) asked in
    step env t2 w2.
Proof using Hbound Hsource.
  intros Hid. rewrite (renderModel_bound _ _ _ _ Hbound), Hsource.
  unfold after_manager. cbv zeta.
  change (store (addClass _ (set_textContent _ w)) src) with (store w src).
  rewrite bool_decide_eq_false_2 by exact Hid.
  reflexivity.
Qed.

Lemma render_transient (err : Error) :
  model_id (store w src) ≠ "" →
  get_model (env mg) (model_id (store w src)) = Rejects err →
  restoredStatus (env mg) = false →
  renderModel env model w = (set_rerenderMimeModel (Some model) asked, Resolved).
Proof using Hbound Hsource.
  intros Hid Hget Hrs. rewrite (render_asks_manager Hid), Hget, Hrs.
  reflexivity.
Qed.

Lemma render_terminal (err : Error) :
  model_id (store w src) ≠ "" →
  get_model (env mg) (model_id (store w src)) = Rejects err →
  restoredStatus (env mg) = true →
  renderModel env model w =
    (console_error err
       (addClass "jupyter-widgets"
          (set_textContent "Error displaying widget: model not found" asked)),
     Resolved).
Proof using Hbound Hsource.
  intros Hid Hget Hrs. rewrite (render_asks_manager Hid), Hget, Hrs.
  reflexivity.
Qed.

Lemma render_reaches_display (wModel : WidgetModel) :
  model_id (store w src) ≠ "" →
  get_model (env mg) (model_id (store w src)) = Fulfils wModel →
  renderModel env model w =
    step env (AwaitDisplayModel mg model src wModel) (displaying wModel).
Proof using Hbound Hsource.
  intros Hid Hget. rewrite (render_asks_manager Hid), Hget. reflexivity.
Qed.

Lemma render_display_failed (wModel : WidgetModel) (err : Error) :
  model_id (store w src) ≠ "" →
  get_model (env mg) (model_id (store w src)) = Fulfils wModel →
  display_model (env mg) wModel = Rejects err →
  renderModel env model w =
    (console_error err
       (addClass "jupyter-widgets"
          (set_textContent "Error displaying widget" (displaying wModel))),
     Resolved).
Proof using Hbound Hsource.
  intros Hid Hget Hdisp. rewrite (render_reaches_display _ Hid Hget).
  unfold step, after_display_model. rewrite Hdisp. reflexivity.
Qed.

Lemma render_displayed (wModel : WidgetModel) (widget : Widget) :
  model_id (store w src) ≠ "" →
  get_model (env mg) (model_id (store w src)) = Fulfils wModel →
  display_model (env mg) wModel = Fulfils widget →
  renderModel env model w =
    (connect_disposed widget src
       (addWidget widget (set_textContent "" (displaying wModel))),
     Resolved).
Proof using Hbound Hsource.
  intros Hid Hget Hdisp. rewrite (render_reaches_display _ Hid Hget).
  unfold step, after_display_model. rewrite Hdisp. reflexivity.
Qed.

End BoundRender.

(** ** Counting the queries *)

Lemma get_model_calls_app (l1 l2 : list ManagerCall) :
  get_model_calls (l1 ++ l2) = get_model_calls l1 + get_model_calls l2.
Proof.
  unfold get_model_calls.
  rewrite list.filter_app, List.length_app. reflexivity.
Qed.

Lemma get_model_calls_get (l : list ManagerCall) (mg : ManagerRef) (id : string) :
  get_model_calls (l ++ [CallGetModel mg id]) = S (get_model_calls l).
Proof. rewrite get_model_calls_app. change (get_model_calls [_]) with 1. lia. Qed.

Lemma get_model_calls_display (l : list ManagerCall) (mg : ManagerRef)
    (wModel : WidgetModel) :
  get_model_calls (l ++ [CallDisplayModel mg wModel]) = get_model_calls l.
Proof. rewrite get_model_calls_app. change (get_model_calls [_]) with 0. lia. Qed.

(** A render that reaches the manager asks it for the model exactly once. *)
Lemma render_queries_once (env : Env) (model : IMimeModel) (w : World)
    (mg : ManagerRef) (src : loc) :
  _manager (this w) = Some (Fulfilled mg) →
  data model !! mimeType (this w) = Some src →
  model_id (store w src) ≠ "" →
  get_model_calls (calls (fst (renderModel env model w)))
    = S (get_model_calls (calls w)).
Proof.
  intros Hm Hsrc Hid.
  destruct (get_model (env mg) (model_id (store w src))) as [wModel|err] eqn:Hget.
  - destruct (display_model (env mg) wModel) as [widget|err] eqn:Hdisp.
    + rewrite (render_displayed env model w mg src Hm Hsrc wModel widget Hid Hget Hdisp).
      cbn [fst calls connect_disposed addWidget set_textContent with_panel
           with_this record_call set_rerenderMimeModel addClass].
      rewrite ?get_model_calls_display, get_model_calls_get. reflexivity.
    + rewrite (render_display_failed env model w mg src Hm Hsrc wModel err Hid Hget Hdisp).
      cbn [fst calls console_error addWidget set_textContent with_panel
           with_this record_call set_rerenderMimeModel addClass].
      rewrite ?get_model_calls_display, get_model_calls_get. reflexivity.
  - destruct (restoredStatus (env mg)) eqn:Hrs.
    + rewrite (render_terminal env model w mg src Hm Hsrc err Hid Hget Hrs).
      cbn [fst calls console_error addWidget set_textContent with_panel
           with_this record_call set_rerenderMimeModel addClass].
      rewrite ?get_model_calls_display, get_model_calls_get. reflexivity.
    + rewrite (render_transient env model w mg src Hm Hsrc err Hid Hget Hrs).
      cbn [fst calls console_error addWidget set_textContent with_panel
           with_this record_call set_rerenderMimeModel addClass].
      rewrite ?get_model_calls_display, get_model_calls_get. reflexivity.
Qed.

(** ** Retry after a transient failure *)

(** What a [restored] notification does when a bundle is pending: it clears
    the text and the class marker and renders that bundle. *)
Lemma restored_notified_pending (env : Env) (w : World) (model : IMimeModel) :
  _rerenderMimeModel (this w) = Some model →
  restored_notified env w =
    let '(w', t) :=
      renderModel env model
        (removeClass "jupyter-widgets" (set_textContent "" w)) in
    (w', Some t).
Proof.
  intros Hp. unfold restored_notified, _rerender, renderModel. rewrite Hp.
  destruct (renderModel_begin model _) as [w0 t0].
  destruct (run env t0 w0) as [w1 t1]. reflexivity.
Qed.

(** ... and when none is pending: nothing. *)
Lemma restored_notified_idle (env : Env) (w : World) :
  _rerenderMimeModel (this w) = None →
  restored_notified env w = (w, None).
Proof. intros Hp. unfold restored_notified, _rerender. rewrite Hp. reflexivity. Qed.

Lemma restored_history_idle (envs : list Env) (w : World) :
  _rerenderMimeModel (this w) = None →
  execs (map DoRestored envs) w = w.
Proof.
  intros Hp. induction envs as [|env envs IH]; [reflexivity |].
  cbn [map execs foldl exec]. rewrite (restored_notified_idle _ _ Hp).
  exact IH.
Qed.

(** C3: when [get_model] fails while [restoredStatus] is false, the render
    completes with the loading text still shown and nothing logged, the
    bundle it was given is the pending-retry bundle, and a [restored]
    notification then performs one render of that bundle: one further
    [get_model] query reaches the manager. *)
Theorem transient_failure_is_retried_once
    (env : Env) (model : IMimeModel) (w : World) (mg : ManagerRef) (src : loc)
    (err : Error) :
  _manager (this w) = Some (Fulfilled mg) →
  data model !! mimeType (this w) = Some src →
  model_id (store w src) ≠ "" →
  get_model (env mg) (model_id (store w src)) = Rejects err →
  restoredStatus (env mg) = false →
  let '(w', t) := renderModel env model w in
  t = Resolved ∧
  textContent (panel (this w')) = "Loading widget..." ∧
  console w' = console w ∧
  _rerenderMimeModel (this w') = Some model ∧
  ∀ env' : Env,
    restored_notified env' w' =
      (let '(w'', t') :=
         renderModel env' model
           (removeClass "jupyter-widgets" (set_textContent "" w')) in
       (w'', Some t')) ∧
    get_model_calls (calls (fst (restored_notified env' w')))
      = S (get_model_calls (calls w')).
Proof.
  intros Hm Hsrc Hid Hget Hrs.
  rewrite (render_transient env model w mg src Hm Hsrc err Hid Hget Hrs).
  repeat (split; [reflexivity |]).
  intros env'.
  set (w' := set_rerenderMimeModel (Some model) _).
  assert (Hp : _rerenderMimeModel (this w') = Some model) by reflexivity.
  rewrite (restored_notified_pending env' w' model Hp).
  split; [reflexivity |].
  set (cleared := removeClass "jupyter-widgets" (set_textContent "" w')).
  pose proof (render_queries_once env' model cleared mg src Hm Hsrc Hid) as Hq.
  destruct (renderModel env' model cleared) as [w'' t'']. exact Hq.
Qed.

(** ** Failure of the view *)

(** C5: when [get_model] succeeds and [display_model] fails, the render
    completes with the generic error text shown and the error logged; no
    bundle is pending, so every later [restored] notification leaves the
    adapter as it is and starts no render. *)
Theorem display_failure_is_not_retried
    (env : Env) (model : IMimeModel) (w : World) (mg : ManagerRef) (src : loc)
    (wModel : WidgetModel) (err : Error) :
  _manager (this w) = Some (Fulfilled mg) →
  data model !! mimeType (this w) = Some src →
  model_id (store w src) ≠ "" →
  get_model (env mg) (model_id (store w src)) = Fulfils wModel →
  display_model (env mg) wModel = Rejects err →
  let '(w', t) := renderModel env model w in
  t = Resolved ∧
  textContent (panel (this w')) = "Error displaying widget" ∧
  "jupyter-widgets" ∈ classList (panel (this w')) ∧
  console w' = console w ++ [err] ∧
  widgets (panel (this w')) = widgets (panel (this w)) ∧
  _rerenderMimeModel (this w') = None ∧
  (∀ env' : Env, restored_notified env' w' = (w', None)) ∧
  (∀ envs : list Env, execs (map DoRestored envs) w' = w').
Proof.
  intros Hm Hsrc Hid Hget Hdisp.
  rewrite (render_display_failed env model w mg src Hm Hsrc wModel err Hid Hget Hdisp).
  split; [reflexivity |]. split; [reflexivity |].
  split; [apply class_add_elem |].
  do 3 (split; [reflexivity |]).
  split.
  - intros env'. apply restored_notified_idle. reflexivity.
  - intros envs. apply restored_history_idle. reflexivity.
Qed.

(** ** The pending-retry bundle *)

(** C9: the adapter has one optional field for the pending-retry bundle, so
    it holds at most one.  A render in which [get_model] succeeds reaches the
    [display_model] await in a world where that field is already [null], and
    it is [null] when the render has completed, whether [display_model]
    succeeds or not. *)
Theorem get_model_success_clears_pending
    (env : Env) (model : IMimeModel) (w : World) (mg : ManagerRef) (src : loc)
    (wModel : WidgetModel) :
  _manager (this w) = Some (Fulfilled mg) →
  data model !! mimeType (this w) = Some src →
  model_id (store w src) ≠ "" →
  get_model (env mg) (model_id (store w src)) = Fulfils wModel →
  (∃ displaying : World,
     renderModel env model w
       = step env (AwaitDisplayModel mg model src wModel) displaying ∧
     _rerenderMimeModel (this displaying) = None ∧
     calls displaying
       = calls w ++ [CallGetModel mg (model_id (store w src));
                     CallDisplayModel mg wModel]) ∧
  _rerenderMimeModel (this (fst (renderModel env model w))) = None.
Proof.
  intros Hm Hsrc Hid Hget.
  rewrite (render_reaches_display env model w mg src Hm Hsrc wModel Hid Hget).
  split.
  - eexists. split; [reflexivity |]. split; [reflexivity |].
    cbn [calls record_call set_rerenderMimeModel with_this addClass
         set_textContent with_panel].
    rewrite <- app_assoc. reflexivity.
  - unfold step, after_display_model.
    destruct (display_model (env mg) wModel); reflexivity.
Qed.

(** ** Terminal failure *)

(** A terminal failure leaves the pending-retry field as it found it. *)
Lemma terminal_failure_frame
    (env : Env) (model : IMimeModel) (w : World) (mg : ManagerRef) (src : loc)
    (err : Error) :
  _manager (this w) = Some (Fulfilled mg) →
  data model !! mimeType (this w) = Some src →
  model_id (store w src) ≠ "" →
  get_model (env mg) (model_id (store w src)) = Rejects err →
  restoredStatus (env mg) = true →
  let '(w', t) := renderModel env model w in
  t = Resolved ∧
  textContent (panel (this w')) = "Error displaying widget: model not found" ∧
  console w' = console w ++ [err] ∧
  _rerenderMimeModel (this w') = _rerenderMimeModel (this w).
Proof.
  intros Hm Hsrc Hid Hget Hrs.
  rewrite (render_terminal env model w mg src Hm Hsrc err Hid Hget Hrs).
  repeat split; reflexivity.
Qed.

(** C2, evaluated on the code: a render of bundle 2 fails while the manager
    is restoring and records the bundle; the [restored] notification retries
    it, [get_model] fails again, now with [restoredStatus] true, and the
    error text is shown.  The bundle is still recorded, so the next
    [restored] notification clears the error text and renders the bundle
    once more, with a third [get_model] query.  The same happens when the
    terminal failure is that of a render of another bundle. *)
Lemma terminal_failure_leaves_stale_retry :
  let w1 := fst (renderModel Fixtures.restoring (Fixtures.bundle 2) Fixtures.bound) in
  let w2 := fst (restored_notified Fixtures.restored_missing w1) in
  let w2' := fst (renderModel Fixtures.restored_missing (Fixtures.bundle 0) w1) in
  (textContent (panel (this w2)) = "Error displaying widget: model not found" ∧
   _rerenderMimeModel (this w2) = Some (Fixtures.bundle 2) ∧
   snd (_rerender w2) = Some (AwaitManager (Fixtures.bundle 2) (Some 2)) ∧
   textContent (panel (this (fst (_rerender w2)))) = "Loading widget..." ∧
   get_model_calls (calls w2) = 2 ∧
   get_model_calls (calls (fst (restored_notified Fixtures.restored_missing w2))) = 3) ∧
  (textContent (panel (this w2')) = "Error displaying widget: model not found" ∧
   _rerenderMimeModel (this w2') = Some (Fixtures.bundle 2) ∧
   snd (_rerender w2') = Some (AwaitManager (Fixtures.bundle 2) (Some 2))).
Proof. repeat split; vm_compute; reflexivity. Qed.

(** ** What never touches the manager reference *)

Lemma after_manager_keeps (mg : ManagerRef) (model : IMimeModel)
    (source : option loc) (w : World) :
  _manager (this (fst (after_manager mg model source w))) = _manager (this w).
Proof.
  unfold after_manager. destruct source as [src|]; [| reflexivity].
  cbv zeta. case_bool_decide; reflexivity.
Qed.

Lemma after_get_model_keeps (mg : ManagerRef) (model : IMimeModel) (src : loc)
    (outcome : Settled WidgetModel) (restored : bool) (w : World) :
  _manager (this (fst (after_get_model mg model src outcome restored w)))
    = _manager (this w).
Proof. destruct outcome, restored; reflexivity. Qed.

Lemma after_display_model_keeps (src : loc) (outcome : Settled Widget) (w : World) :
  _manager (this (fst (after_display_model src outcome w))) = _manager (this w).
Proof. destruct outcome; reflexivity. Qed.

Lemma step_keeps (env : Env) (t : Task) (w : World) :
  _manager (this (fst (step env t w))) = _manager (this w).
Proof.
  destruct t; cbn [step].
  - destruct (_manager (this w)) as [[|mg]|] eqn:Hm; cbn [fst];
      rewrite ?after_manager_keeps; congruence.
  - apply after_get_model_keeps.
  - apply after_display_model_keeps.
  - reflexivity.
  - reflexivity.
Qed.

Lemma run_keeps (env : Env) (t : Task) (w : World) :
  _manager (this (fst (run env t w))) = _manager (this w).
Proof.
  unfold run.
  pose proof (step_keeps env t w) as H1.
  destruct (step env t w) as [w1 t1].
  pose proof (step_keeps env t1 w1) as H2.
  destruct (step env t1 w1) as [w2 t2].
  rewrite step_keeps. cbn [fst] in *. congruence.
Qed.

Lemma renderModel_keeps (env : Env) (model : IMimeModel) (w : World) :
  _manager (this (fst (renderModel env model w))) = _manager (this w).
Proof.
  unfold renderModel.
  pose proof (begin_manager model w) as H0.
  destruct (renderModel_begin model w) as [w0 t0].
  rewrite run_keeps. exact H0.
Qed.

Lemma restored_notified_keeps (env : Env) (w : World) :
  _manager (this (fst (restored_notified env w))) = _manager (this w).
Proof.
  destruct (_rerenderMimeModel (this w)) as [model|] eqn:Hp.
  - rewrite (restored_notified_pending _ _ _ Hp).
    pose proof (renderModel_keeps env model
      (removeClass "jupyter-widgets" (set_textContent "" w))) as H.
    destruct (renderModel env model _) as [w' t']. exact H.
  - rewrite (restored_notified_idle _ _ Hp). reflexivity.
Qed.

(** ** Disposal of the view *)

(** The closures run by [emit_disposed] touch the visibility flag and the
    payload objects only. *)
Lemma disposed_closures_frame (widget : Widget) (slots : list (Widget * loc))
    (w : World) :
  let w' := foldl (λ acc slot, if bool_decide (slot.1 = widget)
                               then on_view_disposed slot.2 acc else acc)
                  w slots in
  _manager (this w') = _manager (this w) ∧
  mimeType (this w') = mimeType (this w) ∧
  calls w' = calls w.
Proof.
  revert w. induction slots as [|slot slots IH]; intros w; [done |].
  cbn [foldl]. cbv zeta in IH |- *.
  destruct (IH (if bool_decide (slot.1 = widget)
                then on_view_disposed slot.2 w else w)) as (-> & -> & ->).
  case_bool_decide; done.
Qed.

(** A payload object whose view is torn down stays so, and a closure
    connected for the disposed view tears its payload down. *)
Lemma disposed_closures_tear_down (widget : Widget) (src : loc)
    (slots : list (Widget * loc)) (w : World) :
  (isHidden (panel (this w)) = true ∧ model_id (store w src) = "")
    ∨ (widget, src) ∈ slots →
  let w' := foldl (λ acc slot, if bool_decide (slot.1 = widget)
                               then on_view_disposed slot.2 acc else acc)
                  w slots in
  isHidden (panel (this w')) = true ∧ model_id (store w' src) = "".
Proof.
  revert w. induction slots as [|[v l] slots IH]; intros w Hcase.
  - destruct Hcase as [Hdone | Hin]; [exact Hdone |].
    apply elem_of_nil in Hin. destruct Hin.
  - cbn [foldl]. apply IH. cbn [fst snd].
    destruct Hcase as [[Hhid Hid] | Hin].
    + left. case_bool_decide; [| done].
      split; [reflexivity |].
      cbn [store on_view_disposed set_model_id].
      destruct (decide (l = src)) as [-> | Hne].
      * rewrite fn_lookup_insert. reflexivity.
      * rewrite fn_lookup_insert_ne by exact Hne. exact Hid.
    + apply elem_of_cons in Hin as [Heq | Hin]; [| right; exact Hin].
      injection Heq as <- <-. left.
      rewrite bool_decide_eq_true_2 by reflexivity.
      split; [reflexivity |].
      cbn [store on_view_disposed set_model_id].
      rewrite fn_lookup_insert. reflexivity.
Qed.

Lemma emit_disposed_keeps (widget : Widget) (w : World) :
  _manager (this (emit_disposed widget w)) = _manager (this w).
Proof. apply (disposed_closures_frame widget (disposedSlots w) w). Qed.

(** C6: when [get_model] and [display_model] both succeed, the render
    completes with the text cleared and the view attached to the container.
    When that view is disposed afterwards, the container is hidden and the
    [model_id] of the bundle's payload is the empty string, so a later render
    of the same bundle hides the container and completes without a query. *)
Theorem success_attaches_view_and_disposal_resets_id
    (env : Env) (model : IMimeModel) (w : World) (mg : ManagerRef) (src : loc)
    (wModel : WidgetModel) (widget : Widget) :
  _manager (this w) = Some (Fulfilled mg) →
  data model !! mimeType (this w) = Some src →
  model_id (store w src) ≠ "" →
  get_model (env mg) (model_id (store w src)) = Fulfils wModel →
  display_model (env mg) wModel = Fulfils widget →
  let '(w', t) := renderModel env model w in
  t = Resolved ∧
  textContent (panel (this w')) = "" ∧
  widgets (panel (this w')) = widgets (panel (this w)) ++ [widget] ∧
  let gone := emit_disposed widget w' in
  isHidden (panel (this gone)) = true ∧
  model_id (store gone src) = "" ∧
  ∀ env' : Env,
    let '(again, t') := renderModel env' model gone in
    t' = Resolved ∧
    isHidden (panel (this again)) = true ∧
    calls again = calls gone.
Proof.
  intros Hm Hsrc Hid Hget Hdisp.
  rewrite (render_displayed env model w mg src Hm Hsrc wModel widget Hid Hget Hdisp).
  do 3 (split; [reflexivity |]).
  set (w' := connect_disposed widget src _). cbv zeta.
  destruct (disposed_closures_tear_down widget src (disposedSlots w') w')
    as [Hhid Hempty].
  { right. subst w'. cbn [disposedSlots connect_disposed].
    apply elem_of_app. right. apply list_elem_of_singleton. reflexivity. }
  destruct (disposed_closures_frame widget (disposedSlots w') w')
    as (Hm' & Hmime & _).
  fold (emit_disposed widget w') in Hhid, Hempty, Hm', Hmime.
  split; [exact Hhid |]. split; [exact Hempty |].
  intros env'.
  assert (Hbound : _manager (this (emit_disposed widget w')) = Some (Fulfilled mg))
    by (rewrite Hm'; exact Hm).
  assert (Hsource : data model !! mimeType (this (emit_disposed widget w')) = Some src)
    by (rewrite Hmime; exact Hsrc).
  rewrite (render_empty_id env' model _ mg src Hbound Hsource Hempty).
  repeat split; reflexivity.
Qed.

(** ** The manager reference along a history *)

Lemma isDisposed_spec (w : World) :
  isDisposed w = true ↔ _manager (this w) = None.
Proof. unfold isDisposed. apply bool_decide_eq_true. Qed.

Lemma dispose_releases (w : World) : _manager (this (dispose w)) = None.
Proof.
  unfold dispose. destruct (isDisposed w) eqn:Hd; [| reflexivity].
  apply isDisposed_spec. exact Hd.
Qed.

Lemma set_manager_field_after (value : ManagerRef) (w : World) :
  _manager (this (fst (set_manager value w))) = resolve value <$> _manager (this w).
Proof.
  unfold set_manager. cbn [_manager this connect_restored].
  destruct (_manager (this w)) as [p|] eqn:Hm; cbn; rewrite ?Hm; reflexivity.
Qed.

(** Each event's effect on the manager reference. *)
Lemma exec_manager (w : World) (op : Op) :
  _manager (this (exec w op)) =
    match op with
    | DoSetManager value => resolve value <$> _manager (this w)
    | DoDispose => None
    | _ => _manager (this w)
    end.
Proof.
  destruct op; cbn [exec].
  - apply set_manager_field_after.
  - apply renderModel_keeps.
  - apply restored_notified_keeps.
  - apply emit_disposed_keeps.
  - apply dispose_releases.
Qed.

(** Without a dispose the reference is never released ... *)
Lemma execs_live (ops : list Op) (w : World) :
  no_dispose ops = true →
  is_Some (_manager (this w)) →
  is_Some (_manager (this (execs ops w))).
Proof.
  revert w. induction ops as [|op ops IH]; intros w Hno Hlive; [exact Hlive |].
  cbn [no_dispose forallb] in Hno. apply andb_prop in Hno as [Hop Hno].
  cbn [execs foldl]. apply IH; [exact Hno |].
  rewrite exec_manager. destruct Hlive as [p Hp].
  destruct op; try (rewrite Hp; eauto; fail).
  discriminate Hop.
Qed.

(** ... a fulfilled delegate keeps its value ... *)
Lemma execs_fulfilled (ops : list Op) (w : World) (mg : ManagerRef) :
  no_dispose ops = true →
  _manager (this w) = Some (Fulfilled mg) →
  _manager (this (execs ops w)) = Some (Fulfilled mg).
Proof.
  revert w. induction ops as [|op ops IH]; intros w Hno Hm; [exact Hm |].
  cbn [no_dispose forallb] in Hno. apply andb_prop in Hno as [Hop Hno].
  cbn [execs foldl]. apply IH; [exact Hno |].
  rewrite exec_manager.
  destruct op; try (rewrite Hm; reflexivity); discriminate Hop.
Qed.

(** ... and once released it stays released. *)
Lemma execs_disposed (ops : list Op) (w : World) :
  _manager (this w) = None →
  _manager (this (execs ops w)) = None.
Proof.
  revert w. induction ops as [|op ops IH]; intros w Hm; [exact Hm |].
  cbn [execs foldl]. apply IH. rewrite exec_manager.
  destruct op; rewrite ?Hm; reflexivity.
Qed.

Lemma new_WidgetRenderer_live (options_mimeType : string)
    (manager : option ManagerRef) (objects : loc → ViewData) :
  is_Some (_manager (this (new_WidgetRenderer options_mimeType manager objects))).
Proof. destruct manager; cbn; eauto. Qed.

(** C7: [dispose] is idempotent.  [isDisposed] is false on a new adapter
    and stays false as long as [dispose] has not been called; it is true
    after [dispose], and stays true whatever happens next; and it is true
    exactly when the [_manager] field is [null]. *)
Theorem dispose_idempotent_isDisposed
    (options_mimeType : string) (manager : option ManagerRef)
    (objects : loc → ViewData) (before after : list Op) :
  no_dispose before = true →
  let w := execs before (new_WidgetRenderer options_mimeType manager objects) in
  isDisposed w = false ∧
  isDisposed (dispose w) = true ∧
  isDisposed (execs after (dispose w)) = true ∧
  (∀ w' : World, dispose (dispose w') = dispose w') ∧
  (∀ w' : World, isDisposed w' = true ↔ _manager (this w') = None).
Proof.
  intros Hno w. split; [| split; [| split; [| split]]].
  - destruct (execs_live before _ Hno
      (new_WidgetRenderer_live options_mimeType manager objects)) as [p Hp].
    fold w in Hp. unfold isDisposed. rewrite Hp.
    apply bool_decide_eq_false_2. discriminate.
  - apply isDisposed_spec, dispose_releases.
  - apply isDisposed_spec, execs_disposed, dispose_releases.
  - intros w'. unfold dispose at 1.
    rewrite (proj2 (isDisposed_spec (dispose w')) (dispose_releases w')).
    reflexivity.
  - exact isDisposed_spec.
Qed.

(** ** The theorems at concrete inputs *)

Lemma transient_failure_is_retried_once_witness :
  let '(w', t) := renderModel Fixtures.restoring (Fixtures.bundle 2) Fixtures.bound in
  t = Resolved ∧
  textContent (panel (this w')) = "Loading widget..." ∧
  console w' = console Fixtures.bound ∧
  _rerenderMimeModel (this w') = Some (Fixtures.bundle 2) ∧
  ∀ env' : Env,
    restored_notified env' w' =
      (let '(w'', t') :=
         renderModel env' (Fixtures.bundle 2)
           (removeClass "jupyter-widgets" (set_textContent "" w')) in
       (w'', Some t')) ∧
    get_model_calls (calls (fst (restored_notified env' w')))
      = S (get_model_calls (calls w')).
Proof.
  apply (transient_failure_is_retried_once Fixtures.restoring (Fixtures.bundle 2)
           Fixtures.bound 0 2 Fixtures.not_found);
    vm_compute; solve [reflexivity | discriminate].
Defined.

Lemma display_failure_is_not_retried_witness :
  let '(w', t) := renderModel Fixtures.broken_view (Fixtures.bundle 0) Fixtures.bound in
  t = Resolved ∧
  textContent (panel (this w')) = "Error displaying widget" ∧
  "jupyter-widgets" ∈ classList (panel (this w')) ∧
  console w' = console Fixtures.bound ++ [Fixtures.no_view] ∧
  widgets (panel (this w')) = widgets (panel (this Fixtures.bound)) ∧
  _rerenderMimeModel (this w') = None ∧
  (∀ env' : Env, restored_notified env' w' = (w', None)) ∧
  (∀ envs : list Env, execs (map DoRestored envs) w' = w').
Proof.
  apply (display_failure_is_not_retried Fixtures.broken_view (Fixtures.bundle 0)
           Fixtures.bound 0 0 7 Fixtures.no_view);
    vm_compute; solve [reflexivity | discriminate].
Defined.

Lemma get_model_success_clears_pending_witness :
  (∃ displaying : World,
     renderModel Fixtures.broken_view (Fixtures.bundle 0) Fixtures.bound
       = step Fixtures.broken_view
           (AwaitDisplayModel 0 (Fixtures.bundle 0) 0 7) displaying ∧
     _rerenderMimeModel (this displaying) = None ∧
     calls displaying
       = calls Fixtures.bound ++ [CallGetModel 0 "m1"; CallDisplayModel 0 7]) ∧
  _rerenderMimeModel
    (this (fst (renderModel Fixtures.broken_view (Fixtures.bundle 0) Fixtures.bound)))
    = None.
Proof.
  apply (get_model_success_clears_pending Fixtures.broken_view (Fixtures.bundle 0)
           Fixtures.bound 0 0 7);
    vm_compute; solve [reflexivity | discriminate].
Defined.

Lemma success_attaches_view_and_disposal_resets_id_witness :
  let '(w', t) := renderModel Fixtures.ready (Fixtures.bundle 0) Fixtures.bound in
  t = Resolved ∧
  textContent (panel (this w')) = "" ∧
  widgets (panel (this w')) = widgets (panel (this Fixtures.bound)) ++ [9] ∧
  let gone := emit_disposed 9 w' in
  isHidden (panel (this gone)) = true ∧
  model_id (store gone 0) = "" ∧
  ∀ env' : Env,
    let '(again, t') := renderModel env' (Fixtures.bundle 0) gone in
    t' = Resolved ∧
    isHidden (panel (this again)) = true ∧
    calls again = calls gone.
Proof.
  apply (success_attaches_view_and_disposal_resets_id Fixtures.ready
           (Fixtures.bundle 0) Fixtures.bound 0 0 7 9);
    vm_compute; solve [reflexivity | discriminate].
Defined.

Lemma dispose_idempotent_isDisposed_witness :
  let w := execs [DoRenderModel Fixtures.ready (Fixtures.bundle 0);
                  DoViewDisposed 9; DoRestored Fixtures.ready]
             (new_WidgetRenderer Fixtures.widget_view (Some 0) Fixtures.objects) in
  isDisposed w = false ∧
  isDisposed (dispose w) = true ∧
  isDisposed (execs [DoSetManager 1; DoRenderModel Fixtures.ready (Fixtures.bundle 0);
                     DoDispose] (dispose w)) = true ∧
  (∀ w' : World, dispose (dispose w') = dispose w') ∧
  (∀ w' : World, isDisposed w' = true ↔ _manager (this w') = None).
Proof.
  apply (dispose_idempotent_isDisposed Fixtures.widget_view (Some 0) Fixtures.objects
           [DoRenderModel Fixtures.ready (Fixtures.bundle 0);
            DoViewDisposed 9; DoRestored Fixtures.ready]
           [DoSetManager 1; DoRenderModel Fixtures.ready (Fixtures.bundle 0);
            DoDispose]).
  reflexivity.
Defined.

(** * Further properties of the renderer *)

(** ** Every way a render can go *)

(** A render with nothing interleaved ends in one of eight ways, told apart
    by the manager reference, the bundle and the manager's answers. *)
Lemma render_cases (env : Env) (model : IMimeModel) (w : World) :
  let loading := addClass "jupyter-widgets" (set_textContent "Loading widget..." w) in
  (_manager (this w) = None ∧
   renderModel env model w = (loading, Rejected (TypeError "this._manager.promise")))
  ∨ (_manager (this w) = Some Pending ∧
     renderModel env model w
       = (loading, AwaitManager model (data model !! mimeType (this w))))
  ∨ (∃ mg, _manager (this w) = Some (Fulfilled mg) ∧
       data model !! mimeType (this w) = None ∧
       renderModel env model w = (loading, Rejected (TypeError "source.model_id")))
  ∨ (∃ mg src, _manager (this w) = Some (Fulfilled mg) ∧
       data model !! mimeType (this w) = Some src ∧
       model_id (store w src) = "" ∧
       renderModel env model w = (hide loading, Resolved))
  ∨ (∃ mg src, _manager (this w) = Some (Fulfilled mg) ∧
       data model !! mimeType (this w) = Some src ∧
       model_id (store w src) ≠ "" ∧
       let asked := record_call (CallGetModel mg (model_id (store w src))) loading in
       (∃ err, get_model (env mg) (model_id (store w src)) = Rejects err ∧
          restoredStatus (env mg) = false ∧
          renderModel env model w
            = (set_rerenderMimeModel (Some model) asked, Resolved))
       ∨ (∃ err, get_model (env mg) (model_id (store w src)) = Rejects err ∧
          restoredStatus (env mg) = true ∧
          renderModel env model w
            = (console_error err
                 (addClass "jupyter-widgets"
                    (set_textContent "Error displaying widget: model not found"
                       asked)), Resolved))
       ∨ (∃ wModel err,
          get_model (env mg) (model_id (store w src)) = Fulfils wModel ∧
          display_model (env mg) wModel = Rejects err ∧
          renderModel env model w
            = (console_error err
                 (addClass "jupyter-widgets"
                    (set_textContent "Error displaying widget"
                       (record_call (CallDisplayModel mg wModel)
                          (set_rerenderMimeModel None asked)))), Resolved))
       ∨ (∃ wModel widget,
          get_model (env mg) (model_id (store w src)) = Fulfils wModel ∧
          display_model (env mg) wModel = Fulfils widget ∧
          renderModel env model w
            = (connect_disposed widget src
                 (addWidget widget
                    (set_textContent ""
                       (record_call (CallDisplayModel mg wModel)
                          (set_rerenderMimeModel None asked)))), Resolved))).
Proof.
  intros loading.
  destruct (_manager (this w)) as [[|mg]|] eqn:Hm.
  - right. left. split; [reflexivity |]. apply renderModel_pending, Hm.
  - do 2 right.
    destruct (data model !! mimeType (this w)) as [src|] eqn:Hsrc.
    + right.
      destruct (decide (model_id (store w src) = "")) as [Hid|Hid].
      * left. exists mg, src. repeat (split; [done |]).
        apply (render_empty_id env model w mg src Hm Hsrc Hid).
      * right. exists mg, src. repeat (split; [done |]). cbv zeta.
        destruct (get_model (env mg) (model_id (store w src)))
          as [wModel|err] eqn:Hget.
        -- do 2 right.
           destruct (display_model (env mg) wModel) as [widget|err] eqn:Hdisp.
           ++ right. exists wModel, widget. repeat (split; [done |]).
              apply (render_displayed env model w mg src Hm Hsrc _ _ Hid Hget Hdisp).
           ++ left. exists wModel, err. repeat (split; [done |]).
              apply (render_display_failed env model w mg src Hm Hsrc _ _ Hid Hget Hdisp).
        -- destruct (restoredStatus (env mg)) eqn:Hrs.
           ++ right. left. exists err. repeat (split; [done |]).
              apply (render_terminal env model w mg src Hm Hsrc _ Hid Hget Hrs).
           ++ left. exists err. repeat (split; [done |]).
              apply (render_transient env model w mg src Hm Hsrc _ Hid Hget Hrs).
    + left. exists mg. repeat (split; [done |]).
      rewrite (renderModel_bound _ _ _ _ Hm), Hsrc. reflexivity.
  - left. split; [reflexivity |].
    unfold renderModel, renderModel_begin. cbn. rewrite Hm. reflexivity.
Qed.

Ltac by_render_cases env model w :=
  let Hm := fresh "Hm" in
  let Hsrc := fresh "Hsrc" in
  let Hid := fresh "Hid" in
  let Hget := fresh "Hget" in
  let Hrs := fresh "Hrs" in
  let Hdisp := fresh "Hdisp" in
  destruct (render_cases env model w) as
    [[Hm ->]
    |[[Hm ->]
    |[(? & Hm & Hsrc & ->)
    |[(? & ? & Hm & Hsrc & Hid & ->)
    |(? & ? & Hm & Hsrc & Hid &
       [(? & Hget & Hrs & ->)
       |[(? & Hget & Hrs & ->)
       |[(? & ? & Hget & Hdisp & ->)
       |(? & ? & Hget & Hdisp & ->)]]])]]]].

(** What a render leaves alone, whichever way it goes. *)
Lemma renderModel_frame (env : Env) (model : IMimeModel) (w : World) :
  let w' := fst (renderModel env model w) in
  mimeType (this w') = mimeType (this w) ∧
  store w' = store w ∧
  restoredSlots w' = restoredSlots w ∧
  (isHidden (panel (this w)) = true → isHidden (panel (this w')) = true).
Proof. by_render_cases env model w; repeat split; auto. Qed.

(** The same for a [restored] notification. *)
Lemma restored_notified_frame (env : Env) (w : World) :
  let w' := fst (restored_notified env w) in
  mimeType (this w') = mimeType (this w) ∧
  store w' = store w ∧
  restoredSlots w' = restoredSlots w ∧
  (isHidden (panel (this w)) = true → isHidden (panel (this w')) = true).
Proof.
  destruct (_rerenderMimeModel (this w)) as [model|] eqn:Hp.
  - rewrite (restored_notified_pending _ _ _ Hp).
    pose proof (renderModel_frame env model
      (removeClass "jupyter-widgets" (set_textContent "" w))) as H.
    destruct (renderModel env model _) as [w' t']. exact H.
  - rewrite (restored_notified_idle _ _ Hp). repeat split; auto.
Qed.

(** ** The bundle's payload *)

(** X1: neither a render nor the retry started by a [restored] notification
    writes to a payload object: the store after it is the store before it,
    whatever the bundle, the state of the adapter and the manager's
    answers. *)
Theorem render_never_writes_payload (env : Env) (model : IMimeModel) (w : World) :
  store (fst (renderModel env model w)) = store w ∧
  store (fst (restored_notified env w)) = store w.
Proof.
  split.
  - apply (renderModel_frame env model w).
  - apply (restored_notified_frame env w).
Qed.

(** The closures of another view leave a world as it is. *)
Lemma disposed_closures_foreign (widget : Widget) (slots : list (Widget * loc))
    (w : World) :
  (∀ l, (widget, l) ∉ slots) →
  foldl (λ acc slot, if bool_decide (slot.1 = widget)
                     then on_view_disposed slot.2 acc else acc) w slots = w.
Proof.
  revert w. induction slots as [|[v l] slots IH]; intros w Hnot; [reflexivity |].
  cbn [foldl fst snd]. rewrite bool_decide_eq_false_2.
  - apply IH. intros l' Hin. apply (Hnot l'). apply elem_of_cons. right. exact Hin.
  - intros ->. apply (Hnot l). apply elem_of_cons. left. reflexivity.
Qed.

(** The closures write to the payloads they captured only. *)
Lemma disposed_closures_elsewhere (widget : Widget) (l : loc)
    (slots : list (Widget * loc)) (w : World) :
  (widget, l) ∉ slots →
  store (foldl (λ acc slot, if bool_decide (slot.1 = widget)
                            then on_view_disposed slot.2 acc else acc) w slots) l
    = store w l.
Proof.
  revert w. induction slots as [|[v l'] slots IH]; intros w Hnot; [reflexivity |].
  cbn [foldl fst snd].
  rewrite IH by (intros Hin; apply Hnot, elem_of_cons; right; exact Hin).
  case_bool_decide as Hv; [| reflexivity]. subst v.
  cbn [store on_view_disposed set_model_id].
  apply fn_lookup_insert_ne. intros ->. apply Hnot, elem_of_cons. left. reflexivity.
Qed.

(** X2: the disposal of a view writes only to the payloads captured by the
    closures connected to that view: a payload for which no closure was
    connected to the view keeps its [model_id], and the disposal of a view
    to which the adapter connected nothing changes nothing at all. *)
Theorem view_disposal_touches_connected_payloads_only (widget : Widget) (w : World) :
  (∀ l : loc, (widget, l) ∉ disposedSlots w →
     store (emit_disposed widget w) l = store w l) ∧
  ((∀ l : loc, (widget, l) ∉ disposedSlots w) → emit_disposed widget w = w).
Proof.
  split.
  - intros l Hnot. apply disposed_closures_elsewhere, Hnot.
  - intros Hnot. apply disposed_closures_foreign, Hnot.
Qed.

Lemma view_disposal_touches_connected_payloads_only_witness :
  let w := fst (renderModel Fixtures.ready (Fixtures.bundle 0) Fixtures.bound) in
  store (emit_disposed 9 w) 2 = store w 2 ∧ emit_disposed 4 w = w.
Proof.
  destruct (view_disposal_touches_connected_payloads_only 9
              (fst (renderModel Fixtures.ready (Fixtures.bundle 0) Fixtures.bound)))
    as [Hstore _].
  destruct (view_disposal_touches_connected_payloads_only 4
              (fst (renderModel Fixtures.ready (Fixtures.bundle 0) Fixtures.bound)))
    as [_ Hsame].
  split.
  - apply Hstore. vm_compute. intros Hin.
    apply list_elem_of_singleton in Hin. discriminate Hin.
  - apply Hsame. vm_compute. intros l Hin.
    apply list_elem_of_singleton in Hin. discriminate Hin.
Defined.

(** ** Invariants along a history *)

Lemma disposed_closures_hidden (widget : Widget) (slots : list (Widget * loc))
    (w : World) :
  isHidden (panel (this w)) = true →
  isHidden (panel (this (foldl (λ acc slot, if bool_decide (slot.1 = widget)
                                           then on_view_disposed slot.2 acc
                                           else acc) w slots))) = true.
Proof.
  revert w. induction slots as [|slot slots IH]; intros w Hhid; [exact Hhid |].
  cbn [foldl]. apply IH. case_bool_decide; [reflexivity | exact Hhid].
Qed.

Lemma disposed_closures_pending (widget : Widget) (slots : list (Widget * loc))
    (w : World) :
  _rerenderMimeModel
    (this (foldl (λ acc slot, if bool_decide (slot.1 = widget)
                              then on_view_disposed slot.2 acc else acc) w slots))
    = _rerenderMimeModel (this w).
Proof.
  revert w. induction slots as [|slot slots IH]; intros w; [reflexivity |].
  cbn [foldl]. rewrite IH. case_bool_decide; reflexivity.
Qed.

Lemma disposed_closures_slots (widget : Widget) (slots : list (Widget * loc))
    (w : World) :
  restoredSlots (foldl (λ acc slot, if bool_decide (slot.1 = widget)
                                    then on_view_disposed slot.2 acc else acc)
                       w slots)
    = restoredSlots w.
Proof.
  revert w. induction slots as [|slot slots IH]; intros w; [reflexivity |].
  cbn [foldl]. rewrite IH. case_bool_decide; reflexivity.
Qed.

(** No event changes the mime type or shows a hidden container. *)
Lemma exec_frame (w : World) (op : Op) :
  mimeType (this (exec w op)) = mimeType (this w) ∧
  (isHidden (panel (this w)) = true → isHidden (panel (this (exec w op))) = true).
Proof.
  destruct op as [value|env model|env|widget|]; cbn [exec].
  - unfold set_manager. cbn [_manager this connect_restored].
    destruct (_manager (this w)); split; auto.
  - destruct (renderModel_frame env model w) as (Hmime & _ & _ & Hhid).
    split; assumption.
  - destruct (restored_notified_frame env w) as (Hmime & _ & _ & Hhid).
    split; assumption.
  - split.
    + apply (disposed_closures_frame widget (disposedSlots w) w).
    + apply disposed_closures_hidden.
  - unfold dispose. destruct (isDisposed w); split; auto.
Qed.

(** X3: the mime type given to the constructor is the adapter's mime type
    for good: no sequence of bindings, renders, [restored] notifications,
    view disposals and disposes changes it. *)
Theorem mimeType_never_changes (options_mimeType : string)
    (manager : option ManagerRef) (objects : loc → ViewData) (ops : list Op) :
  mimeType (this (execs ops (new_WidgetRenderer options_mimeType manager objects)))
    = options_mimeType.
Proof.
  assert (Hnew : mimeType (this (new_WidgetRenderer options_mimeType manager objects))
                   = options_mimeType)
    by (destruct manager; reflexivity).
  revert Hnew. generalize (new_WidgetRenderer options_mimeType manager objects).
  induction ops as [|op ops IH]; intros w Hw; [exact Hw |].
  cbn [execs foldl]. apply IH.
  rewrite (proj1 (exec_frame w op)). exact Hw.
Qed.

(** X4: the adapter hides its container and never shows it again: once the
    container is hidden it stays hidden through every later event, a later
    render that attaches a new view included. *)
Theorem hidden_container_stays_hidden (ops : list Op) (w : World) :
  isHidden (panel (this w)) = true →
  isHidden (panel (this (execs ops w))) = true.
Proof.
  revert w. induction ops as [|op ops IH]; intros w Hhid; [exact Hhid |].
  cbn [execs foldl]. apply IH. apply (proj2 (exec_frame w op)), Hhid.
Qed.

Lemma hidden_container_stays_hidden_witness :
  let torn_down :=
    execs [DoRenderModel Fixtures.ready (Fixtures.bundle 0); DoViewDisposed 9]
          Fixtures.bound in
  isHidden (panel (this (execs [DoRenderModel Fixtures.ready (Fixtures.bundle 2)]
                               torn_down))) = true.
Proof.
  apply (hidden_container_stays_hidden
           [DoRenderModel Fixtures.ready (Fixtures.bundle 2)]).
  vm_compute. reflexivity.
Defined.

(** What a render does to the pending-retry field. *)
Lemma renderModel_pending_field (env : Env) (model : IMimeModel) (w : World) :
  let after := _rerenderMimeModel (this (fst (renderModel env model w))) in
  after = _rerenderMimeModel (this w) ∨ after = Some model ∨ after = None.
Proof. by_render_cases env model w; cbn; auto. Qed.

Lemma exec_pending_field (w : World) (op : Op) (m : IMimeModel) :
  _rerenderMimeModel (this (exec w op)) = Some m →
  _rerenderMimeModel (this w) = Some m ∨ m ∈ rendered [op].
Proof.
  destruct op as [value|env model|env|widget|]; cbn [exec]; intros Hp.
  - left. revert Hp. unfold set_manager. cbn [_manager this connect_restored].
    destruct (_manager (this w)); exact id.
  - destruct (renderModel_pending_field env model w) as [H | [H | H]];
      cbv zeta in H; rewrite H in Hp.
    + left. exact Hp.
    + right. injection Hp as <-. cbn. apply list_elem_of_singleton. reflexivity.
    + discriminate Hp.
  - left. destruct (_rerenderMimeModel (this w)) as [model|] eqn:Hq.
    + rewrite (restored_notified_pending _ _ _ Hq) in Hp.
      pose proof (renderModel_pending_field env model
        (removeClass "jupyter-widgets" (set_textContent "" w))) as H.
      destruct (renderModel env model _) as [w' t']. cbn [fst] in Hp, H.
      cbv zeta in H. rewrite Hp in H.
      destruct H as [H | [H | H]]; [| symmetry; exact H | discriminate H].
      change (Some m = _rerenderMimeModel (this w)) in H.
      rewrite Hq in H. symmetry. exact H.
    + rewrite (restored_notified_idle _ _ Hq) in Hp. cbn [fst] in Hp. congruence.
  - left. unfold emit_disposed in Hp. rewrite disposed_closures_pending in Hp.
    exact Hp.
  - left. revert Hp. unfold dispose. destruct (isDisposed w); exact id.
Qed.

Lemma rendered_cons (op : Op) (ops : list Op) :
  rendered (op :: ops) = rendered [op] ++ rendered ops.
Proof. unfold rendered. cbn. destruct op; reflexivity. Qed.

Lemma execs_pending_field (ops : list Op) (w : World) (m : IMimeModel) :
  _rerenderMimeModel (this (execs ops w)) = Some m →
  _rerenderMimeModel (this w) = Some m ∨ m ∈ rendered ops.
Proof.
  revert w. induction ops as [|op ops IH]; intros w Hp; [left; exact Hp |].
  cbn [execs foldl] in Hp. rewrite rendered_cons.
  destruct (IH _ Hp) as [Hprev | Hin].
  - destruct (exec_pending_field _ _ _ Hprev) as [Hw | Hop].
    + left. exact Hw.
    + right. apply elem_of_app. left. exact Hop.
  - right. apply elem_of_app. right. exact Hin.
Qed.

(** X5: the pending-retry bundle is always a bundle the host passed to
    [renderModel]: whatever the history of a new adapter, a bundle held for
    retry is one of the bundles that were rendered on it. *)
Theorem pending_retry_is_a_rendered_bundle (options_mimeType : string)
    (manager : option ManagerRef) (objects : loc → ViewData) (ops : list Op)
    (m : IMimeModel) :
  _rerenderMimeModel
    (this (execs ops (new_WidgetRenderer options_mimeType manager objects)))
    = Some m →
  m ∈ rendered ops.
Proof.
  intros Hp. destruct (execs_pending_field _ _ _ Hp) as [Hnew | Hin]; [| exact Hin].
  destruct manager; discriminate Hnew.
Qed.

Lemma pending_retry_is_a_rendered_bundle_witness :
  Fixtures.bundle 2
    ∈ rendered [DoRenderModel Fixtures.restoring (Fixtures.bundle 2);
                DoRestored Fixtures.restoring].
Proof.
  apply (pending_retry_is_a_rendered_bundle Fixtures.widget_view (Some 0)
           Fixtures.objects
           [DoRenderModel Fixtures.restoring (Fixtures.bundle 2);
            DoRestored Fixtures.restoring]).
  vm_compute. reflexivity.
Defined.

(** ** What a render logs and asks *)

(** X6: a render writes at most one line to the console, and only the
    error the manager rejected its own query with: the rejection of the
    [get_model] call it made, when the manager reports that it is restored,
    or the rejection of the [display_model] call it made for the model
    [get_model] returned.  A [get_model] failure during restoration is not
    logged. *)
Theorem render_logs_only_manager_rejections
    (env : Env) (model : IMimeModel) (w : World) :
  let w' := fst (renderModel env model w) in
  (console w' = console w
   ∨ ∃ (mg : ManagerRef) (src : loc) (err : Error),
       _manager (this w) = Some (Fulfilled mg) ∧
       data model !! mimeType (this w) = Some src ∧
       model_id (store w src) ≠ "" ∧
       console w' = console w ++ [err] ∧
       ((get_model (env mg) (model_id (store w src)) = Rejects err ∧
         restoredStatus (env mg) = true)
        ∨ (∃ wModel,
             get_model (env mg) (model_id (store w src)) = Fulfils wModel ∧
             display_model (env mg) wModel = Rejects err))) ∧
  (∀ (mg : ManagerRef) (src : loc) (err : Error),
     _manager (this w) = Some (Fulfilled mg) →
     data model !! mimeType (this w) = Some src →
     get_model (env mg) (model_id (store w src)) = Rejects err →
     restoredStatus (env mg) = false →
     console w' = console w).
Proof.
  cbv zeta. split.
  - by_render_cases env model w; cbn [fst]; try (left; reflexivity).
    + right. eexists _, _, _. do 3 (split; [eassumption |]).
      split; [reflexivity |]. left. split; assumption.
    + right. eexists _, _, _. do 3 (split; [eassumption |]).
      split; [reflexivity |]. right. eexists. split; eassumption.
  - intros mg src err Hm Hsrc Hget Hrs.
    destruct (decide (model_id (store w src) = "")) as [Hid|Hid].
    + rewrite (render_empty_id env model w mg src Hm Hsrc Hid). reflexivity.
    + rewrite (render_transient env model w mg src Hm Hsrc err Hid Hget Hrs).
      reflexivity.
Qed.

Lemma render_logs_only_manager_rejections_witness :
  console (fst (renderModel Fixtures.restoring (Fixtures.bundle 2) Fixtures.bound))
    = console Fixtures.bound.
Proof.
  apply (proj2 (render_logs_only_manager_rejections Fixtures.restoring
                  (Fixtures.bundle 2) Fixtures.bound)
           0 2 Fixtures.not_found);
    vm_compute; reflexivity.
Defined.

(** X7: a render that gets as far as the manager asks the manager the
    delegate resolved to, for the [model_id] found in the payload, exactly
    once; it asks for a view only when [get_model] succeeded, and then for
    the model [get_model] returned. *)
Theorem render_asks_the_bound_manager
    (env : Env) (model : IMimeModel) (w : World) (mg : ManagerRef) (src : loc) :
  _manager (this w) = Some (Fulfilled mg) →
  data model !! mimeType (this w) = Some src →
  model_id (store w src) ≠ "" →
  calls (fst (renderModel env model w)) =
    calls w ++ CallGetModel mg (model_id (store w src)) ::
      match get_model (env mg) (model_id (store w src)) with
      | Fulfils wModel => [CallDisplayModel mg wModel]
      | Rejects _ => []
      end.
Proof.
  intros Hm Hsrc Hid.
  destruct (get_model (env mg) (model_id (store w src))) as [wModel|err] eqn:Hget.
  - rewrite (render_reaches_display env model w mg src Hm Hsrc wModel Hid Hget).
    unfold step, after_display_model.
    destruct (display_model (env mg) wModel); cbn; rewrite <- app_assoc;
      reflexivity.
  - destruct (restoredStatus (env mg)) eqn:Hrs.
    + rewrite (render_terminal env model w mg src Hm Hsrc err Hid Hget Hrs).
      reflexivity.
    + rewrite (render_transient env model w mg src Hm Hsrc err Hid Hget Hrs).
      reflexivity.
Qed.

Lemma render_asks_the_bound_manager_witness :
  calls (fst (renderModel Fixtures.ready (Fixtures.bundle 0) Fixtures.bound))
    = calls Fixtures.bound ++ [CallGetModel 0 "m1"; CallDisplayModel 0 7].
Proof.
  apply (render_asks_the_bound_manager Fixtures.ready (Fixtures.bundle 0)
           Fixtures.bound 0 0);
    vm_compute; solve [reflexivity | discriminate].
Defined.

(** ** Renders without a usable manager or payload *)

(** X8: on an adapter with no manager bound a render shows the loading
    placeholder, marks the container and waits: it makes no query, logs
    nothing, attaches nothing, leaves the visibility and the pending-retry
    bundle alone, and resuming it before a manager is bound changes
    nothing. *)
Theorem unbound_render_only_shows_placeholder
    (env : Env) (model : IMimeModel) (w : World) :
  _manager (this w) = Some Pending →
  let '(w', t) := renderModel env model w in
  t = AwaitManager model (data model !! mimeType (this w)) ∧
  w' = addClass "jupyter-widgets" (set_textContent "Loading widget..." w) ∧
  textContent (panel (this w')) = "Loading widget..." ∧
  "jupyter-widgets" ∈ classList (panel (this w')) ∧
  calls w' = calls w ∧
  console w' = console w ∧
  widgets (panel (this w')) = widgets (panel (this w)) ∧
  isHidden (panel (this w')) = isHidden (panel (this w)) ∧
  _rerenderMimeModel (this w') = _rerenderMimeModel (this w) ∧
  ∀ env' : Env, run env' t w' = (w', t).
Proof.
  intros Hm. rewrite (renderModel_pending _ _ _ Hm).
  do 3 (split; [reflexivity |]). split; [apply class_add_elem |].
  do 5 (split; [reflexivity |]).
  intros env'. unfold run.
  do 3 (rewrite step_manager_pending by exact Hm; cbv beta iota).
  reflexivity.
Qed.

Lemma unbound_render_only_shows_placeholder_witness :
  snd (renderModel Fixtures.ready (Fixtures.bundle 0) Fixtures.unbound)
    = AwaitManager (Fixtures.bundle 0) (Some 0).
Proof.
  pose proof (unbound_render_only_shows_placeholder Fixtures.ready
                (Fixtures.bundle 0) Fixtures.unbound eq_refl) as H.
  destruct (renderModel Fixtures.ready (Fixtures.bundle 0) Fixtures.unbound)
    as [w' t].
  destruct H as [-> _]. vm_compute. reflexivity.
Defined.

(** X9: a render on a disposed adapter rejects with a [TypeError], but only
    after it has written the loading placeholder and the class marker to the
    container; it makes no query and logs nothing. *)
Theorem disposed_render_rejects_after_placeholder
    (env : Env) (model : IMimeModel) (w : World) :
  isDisposed w = true →
  let '(w', t) := renderModel env model w in
  t = Rejected (TypeError "this._manager.promise") ∧
  w' = addClass "jupyter-widgets" (set_textContent "Loading widget..." w) ∧
  textContent (panel (this w')) = "Loading widget..." ∧
  "jupyter-widgets" ∈ classList (panel (this w')) ∧
  calls w' = calls w ∧
  console w' = console w.
Proof.
  intros Hd. apply isDisposed_spec in Hd.
  unfold renderModel, renderModel_begin. cbn [_manager this addClass
    set_textContent with_panel with_this]. rewrite Hd. cbn [run step].
  do 3 (split; [reflexivity |]). split; [apply class_add_elem |].
  split; reflexivity.
Qed.

Lemma disposed_render_rejects_after_placeholder_witness :
  let '(w', t) :=
    renderModel Fixtures.ready (Fixtures.bundle 0) (dispose Fixtures.bound) in
  t = Rejected (TypeError "this._manager.promise") ∧
  w' = addClass "jupyter-widgets"
         (set_textContent "Loading widget..." (dispose Fixtures.bound)) ∧
  textContent (panel (this w')) = "Loading widget..." ∧
  "jupyter-widgets" ∈ classList (panel (this w')) ∧
  calls w' = calls (dispose Fixtures.bound) ∧
  console w' = console (dispose Fixtures.bound).
Proof.
  apply (disposed_render_rejects_after_placeholder Fixtures.ready
           (Fixtures.bundle 0) (dispose Fixtures.bound)).
  vm_compute. reflexivity.
Defined.

(** X10: a bundle with no entry under the adapter's mime type makes the
    render reject with a [TypeError] when it reads [source.model_id], after
    the placeholder is shown and without a query.  With no manager bound the
    render first waits, and rejects in the same way once a manager is
    bound. *)
Theorem missing_entry_rejects_at_model_id
    (env : Env) (model : IMimeModel) (w : World) (p : PromiseDelegate) :
  _manager (this w) = Some p →
  data model !! mimeType (this w) = None →
  let loading := addClass "jupyter-widgets" (set_textContent "Loading widget..." w) in
  match p with
  | Fulfilled _ =>
      renderModel env model w = (loading, Rejected (TypeError "source.model_id"))
  | Pending =>
      renderModel env model w = (loading, AwaitManager model None) ∧
      ∀ (value : ManagerRef) (env' : Env),
        run env' (AwaitManager model None) (fst (set_manager value loading))
          = (fst (set_manager value loading),
             Rejected (TypeError "source.model_id"))
  end.
Proof.
  intros Hm Hsrc loading. destruct p as [|mg].
  - rewrite (renderModel_pending _ _ _ Hm), Hsrc. split; [reflexivity |].
    intros value env'. subst loading.
    rewrite run_after_binding by exact Hm.
    rewrite (set_manager_live _ _ Pending) by exact Hm.
    reflexivity.
  - rewrite (renderModel_bound _ _ _ _ Hm), Hsrc. reflexivity.
Qed.

Lemma missing_entry_rejects_at_model_id_witness :
  renderModel Fixtures.ready Fixtures.no_entry Fixtures.bound
    = (addClass "jupyter-widgets"
         (set_textContent "Loading widget..." Fixtures.bound),
       Rejected (TypeError "source.model_id")).
Proof.
  apply (missing_entry_rejects_at_model_id Fixtures.ready Fixtures.no_entry
           Fixtures.bound (Fulfilled 0)); vm_compute; reflexivity.
Defined.

(** X11: the setter called on a disposed adapter throws a [TypeError], and
    it throws after having called [connect] on the manager's [restored]
    signal: the adapter is connected to that signal afterwards (a connection
    is added unless there was one already), nothing is resolved, and the
    adapter stays disposed.  Right after the dispose of a live adapter, whose
    connections the dispose dropped, the connection made by the setter is
    the only one. *)
Theorem setter_on_disposed_adapter_throws (value : ManagerRef) (w : World) :
  isDisposed w = true →
  let '(w', thrown) := set_manager value w in
  thrown = Some (TypeError "this._manager.resolve") ∧
  w' = connect_restored value w ∧
  value ∈ restoredSlots w' ∧
  (value ∉ restoredSlots w → restoredSlots w' = restoredSlots w ++ [value]) ∧
  (value ∈ restoredSlots w → restoredSlots w' = restoredSlots w) ∧
  isDisposed w' = true ∧
  ∀ live : World,
    isDisposed live = false →
    restoredSlots (fst (set_manager value (dispose live))) = [value].
Proof.
  intros Hd. pose proof Hd as Hnull. apply isDisposed_spec in Hnull.
  assert (Hset : set_manager value w
                 = (connect_restored value w,
                    Some (TypeError "this._manager.resolve"))).
  { unfold set_manager. cbn [_manager this connect_restored].
    rewrite Hnull. reflexivity. }
  rewrite Hset.
  split; [reflexivity |]. split; [reflexivity |].
  split; [apply connect_restored_elem |].
  split; [intros Hnot; cbn [restoredSlots connect_restored];
          rewrite bool_decide_eq_false_2 by exact Hnot; reflexivity |].
  split; [intros Hin; cbn [restoredSlots connect_restored];
          rewrite bool_decide_eq_true_2 by exact Hin; reflexivity |].
  split; [exact Hd |].
  intros live Hlive. rewrite set_manager_slots.
  unfold dispose. rewrite Hlive. reflexivity.
Qed.

Lemma setter_on_disposed_adapter_throws_witness :
  let '(w', thrown) := set_manager 1 (dispose Fixtures.bound) in
  thrown = Some (TypeError "this._manager.resolve") ∧
  w' = connect_restored 1 (dispose Fixtures.bound) ∧
  1 ∈ restoredSlots w' ∧
  (1 ∉ restoredSlots (dispose Fixtures.bound) →
     restoredSlots w' = restoredSlots (dispose Fixtures.bound) ++ [1]) ∧
  (1 ∈ restoredSlots (dispose Fixtures.bound) →
     restoredSlots w' = restoredSlots (dispose Fixtures.bound)) ∧
  isDisposed w' = true ∧
  ∀ live : World,
    isDisposed live = false →
    restoredSlots (fst (set_manager 1 (dispose live))) = [1].
Proof.
  apply (setter_on_disposed_adapter_throws 1 (dispose Fixtures.bound)).
  vm_compute. reflexivity.
Defined.

(** ** Binding, retrying and giving up *)

(** X12: binding the manager late gives what binding it early gives: a
    render started on an adapter with no manager and resumed when the
    manager is bound ends in the same world and the same way as a render
    started after the manager was bound. *)
Theorem late_binding_same_as_early
    (env0 env : Env) (model : IMimeModel) (w : World) (value : ManagerRef) :
  _manager (this w) = Some Pending →
  let '(w0, t0) := renderModel env0 model w in
  run env t0 (fst (set_manager value w0))
    = renderModel env model (fst (set_manager value w)).
Proof.
  intros Hm. rewrite (renderModel_pending _ _ _ Hm).
  rewrite run_after_binding by exact Hm.
  rewrite (set_manager_live _ _ Pending) by exact Hm. cbn [fst resolve].
  rewrite (renderModel_bound env model _ value) by reflexivity.
  reflexivity.
Qed.

Lemma late_binding_same_as_early_witness :
  let '(w0, t0) := renderModel Fixtures.restoring (Fixtures.bundle 0) Fixtures.unbound in
  run Fixtures.ready t0 (fst (set_manager 0 w0))
    = renderModel Fixtures.ready (Fixtures.bundle 0)
        (fst (set_manager 0 Fixtures.unbound)).
Proof.
  apply (late_binding_same_as_early Fixtures.restoring Fixtures.ready
           (Fixtures.bundle 0) Fixtures.unbound 0).
  reflexivity.
Defined.

(** X13: the retry recovers the render.  When [get_model] fails during
    restoration and, at the [restored] notification, [get_model] and
    [display_model] succeed, the retried render completes with the text
    cleared, the view attached, the class marker present, no bundle pending
    and nothing logged; the manager was asked for the model twice and for
    the view once; and the disposal closure of the view is connected. *)
Theorem retry_after_restore_attaches_view
    (env1 env2 : Env) (model : IMimeModel) (w : World) (mg : ManagerRef)
    (src : loc) (err : Error) (wModel : WidgetModel) (widget : Widget) :
  _manager (this w) = Some (Fulfilled mg) →
  data model !! mimeType (this w) = Some src →
  model_id (store w src) ≠ "" →
  get_model (env1 mg) (model_id (store w src)) = Rejects err →
  restoredStatus (env1 mg) = false →
  get_model (env2 mg) (model_id (store w src)) = Fulfils wModel →
  display_model (env2 mg) wModel = Fulfils widget →
  let w1 := fst (renderModel env1 model w) in
  let '(w2, t) := restored_notified env2 w1 in
  t = Some Resolved ∧
  textContent (panel (this w2)) = "" ∧
  widgets (panel (this w2)) = widgets (panel (this w)) ++ [widget] ∧
  "jupyter-widgets" ∈ classList (panel (this w2)) ∧
  isHidden (panel (this w2)) = isHidden (panel (this w)) ∧
  _rerenderMimeModel (this w2) = None ∧
  console w2 = console w ∧
  calls w2 = calls w ++ [CallGetModel mg (model_id (store w src));
                         CallGetModel mg (model_id (store w src));
                         CallDisplayModel mg wModel] ∧
  disposedSlots w2 = disposedSlots w ++ [(widget, src)].
Proof.
  intros Hm Hsrc Hid Hget1 Hrs1 Hget2 Hdisp2.
  rewrite (render_transient env1 model w mg src Hm Hsrc err Hid Hget1 Hrs1).
  cbn [fst]. cbv zeta.
  rewrite (restored_notified_pending env2 _ model) by reflexivity.
  match goal with
  | |- context [renderModel env2 model ?cleared] =>
      rewrite (render_displayed env2 model cleared mg src Hm Hsrc wModel widget
                 Hid Hget2 Hdisp2)
  end.
  do 3 (split; [reflexivity |]). split; [apply class_add_elem |].
  do 3 (split; [reflexivity |]).
  split; [| reflexivity].
  cbn [calls connect_disposed addWidget set_textContent with_panel with_this
       record_call set_rerenderMimeModel addClass removeClass].
  rewrite <- !app_assoc. reflexivity.
Qed.

Lemma retry_after_restore_attaches_view_witness :
  let w1 := fst (renderModel Fixtures.restoring (Fixtures.bundle 2) Fixtures.bound) in
  let '(w2, t) := restored_notified Fixtures.ready w1 in
  t = Some Resolved ∧
  textContent (panel (this w2)) = "" ∧
  widgets (panel (this w2)) = widgets (panel (this Fixtures.bound)) ++ [9] ∧
  "jupyter-widgets" ∈ classList (panel (this w2)) ∧
  isHidden (panel (this w2)) = isHidden (panel (this Fixtures.bound)) ∧
  _rerenderMimeModel (this w2) = None ∧
  console w2 = console Fixtures.bound ∧
  calls w2 = calls Fixtures.bound ++ [CallGetModel 0 "m2"; CallGetModel 0 "m2";
                                      CallDisplayModel 0 7] ∧
  disposedSlots w2 = disposedSlots Fixtures.bound ++ [(9, 2)].
Proof.
  apply (retry_after_restore_attaches_view Fixtures.restoring Fixtures.ready
           (Fixtures.bundle 2) Fixtures.bound 0 2 Fixtures.not_found 7 9);
    vm_compute; solve [reflexivity | discriminate].
Defined.

(** X14: when [get_model] fails with the manager restored and no bundle was
    pending, the failure is final: the render completes with the
    model-not-found text and the class marker, the error is logged, nothing
    is attached, no bundle is pending, and later [restored] notifications
    leave the adapter as it is. *)
Theorem terminal_failure_without_pending_is_final
    (env : Env) (model : IMimeModel) (w : World) (mg : ManagerRef) (src : loc)
    (err : Error) :
  _manager (this w) = Some (Fulfilled mg) →
  data model !! mimeType (this w) = Some src →
  model_id (store w src) ≠ "" →
  get_model (env mg) (model_id (store w src)) = Rejects err →
  restoredStatus (env mg) = true →
  _rerenderMimeModel (this w) = None →
  let '(w', t) := renderModel env model w in
  t = Resolved ∧
  textContent (panel (this w')) = "Error displaying widget: model not found" ∧
  "jupyter-widgets" ∈ classList (panel (this w')) ∧
  console w' = console w ++ [err] ∧
  widgets (panel (this w')) = widgets (panel (this w)) ∧
  calls w' = calls w ++ [CallGetModel mg (model_id (store w src))] ∧
  _rerenderMimeModel (this w') = None ∧
  ∀ envs : list Env, execs (map DoRestored envs) w' = w'.
Proof.
  intros Hm Hsrc Hid Hget Hrs Hnone.
  rewrite (render_terminal env model w mg src Hm Hsrc err Hid Hget Hrs).
  do 2 (split; [reflexivity |]). split; [apply class_add_elem |].
  do 3 (split; [reflexivity |]).
  split; [exact Hnone |].
  intros envs. apply restored_history_idle. exact Hnone.
Qed.

Lemma terminal_failure_without_pending_is_final_witness :
  let '(w', t) :=
    renderModel Fixtures.restored_missing (Fixtures.bundle 0) Fixtures.bound in
  t = Resolved ∧
  textContent (panel (this w')) = "Error displaying widget: model not found" ∧
  "jupyter-widgets" ∈ classList (panel (this w')) ∧
  console w' = console Fixtures.bound ++ [Fixtures.not_found] ∧
  widgets (panel (this w')) = widgets (panel (this Fixtures.bound)) ∧
  calls w' = calls Fixtures.bound ++ [CallGetModel 0 "m1"] ∧
  _rerenderMimeModel (this w') = None ∧
  ∀ envs : list Env, execs (map DoRestored envs) w' = w'.
Proof.
  apply (terminal_failure_without_pending_is_final Fixtures.restored_missing
           (Fixtures.bundle 0) Fixtures.bound 0 0 Fixtures.not_found);
    vm_compute; solve [reflexivity | discriminate].
Defined.

(** One more [restored] notification while the model is still missing and
    the manager still restoring. *)
Lemma restored_while_restoring (env : Env) (model : IMimeModel) (w : World)
    (mg : ManagerRef) (src : loc) :
  _manager (this w) = Some (Fulfilled mg) →
  data model !! mimeType (this w) = Some src →
  model_id (store w src) ≠ "" →
  _rerenderMimeModel (this w) = Some model →
  (∃ err, get_model (env mg) (model_id (store w src)) = Rejects err) →
  restoredStatus (env mg) = false →
  let w' := fst (restored_notified env w) in
  _manager (this w') = Some (Fulfilled mg) ∧
  mimeType (this w') = mimeType (this w) ∧
  store w' = store w ∧
  _rerenderMimeModel (this w') = Some model ∧
  textContent (panel (this w')) = "Loading widget..." ∧
  console w' = console w ∧
  widgets (panel (this w')) = widgets (panel (this w)) ∧
  get_model_calls (calls w') = S (get_model_calls (calls w)).
Proof.
  intros Hm Hsrc Hid Hp [err Hget] Hrs.
  rewrite (restored_notified_pending env w model Hp).
  match goal with
  | |- context [renderModel env model ?cleared] =>
      rewrite (render_transient env model cleared mg src Hm Hsrc err Hid Hget Hrs)
  end.
  cbv zeta. cbn [fst].
  split; [exact Hm |]. do 6 (split; [reflexivity |]).
  cbn [calls set_rerenderMimeModel with_this record_call addClass removeClass
       set_textContent with_panel].
  apply get_model_calls_get.
Qed.

(** X15: as long as the manager is restoring and the model is missing, every
    [restored] notification retries the pending bundle and leaves it
    pending: after any number of them the bundle is still held for retry,
    nothing was logged or attached, and the manager got one [get_model]
    query per notification. *)
Theorem retry_stays_armed_while_restoring
    (envs : list Env) (model : IMimeModel) (w : World) (mg : ManagerRef)
    (src : loc) :
  _manager (this w) = Some (Fulfilled mg) →
  data model !! mimeType (this w) = Some src →
  model_id (store w src) ≠ "" →
  _rerenderMimeModel (this w) = Some model →
  Forall (λ env : Env,
            (∃ err, get_model (env mg) (model_id (store w src)) = Rejects err) ∧
            restoredStatus (env mg) = false) envs →
  let w' := execs (map DoRestored envs) w in
  _rerenderMimeModel (this w') = Some model ∧
  console w' = console w ∧
  widgets (panel (this w')) = widgets (panel (this w)) ∧
  get_model_calls (calls w') = get_model_calls (calls w) + length envs.
Proof.
  revert w. induction envs as [|env envs IH]; intros w Hm Hsrc Hid Hp Hall.
  - cbn. repeat split; auto.
  - inversion Hall as [|env' envs' [Hget Hrs] Hall']; subst env' envs'.
    clear Hall; rename Hall' into Hall.
    destruct (restored_while_restoring env model w mg src Hm Hsrc Hid Hp Hget Hrs)
      as (Hm' & Hmime & Hstore & Hp' & _ & Hcons & Hwid & Hcalls).
    cbn [map execs foldl exec].
    set (w1 := fst (restored_notified env w)) in *.
    destruct (IH w1) as (IHp & IHcons & IHwid & IHcalls).
    + exact Hm'.
    + rewrite Hmime. exact Hsrc.
    + rewrite Hstore. exact Hid.
    + exact Hp'.
    + rewrite Hstore. exact Hall.
    + unfold execs in *. cbv zeta.
      split; [exact IHp |]. split; [congruence |]. split; [congruence |].
      rewrite IHcalls, Hcalls. cbn [length]. lia.
Qed.

Lemma retry_stays_armed_while_restoring_witness :
  let w := fst (renderModel Fixtures.restoring (Fixtures.bundle 2) Fixtures.bound) in
  let w' := execs (map DoRestored [Fixtures.restoring; Fixtures.restoring]) w in
  _rerenderMimeModel (this w') = Some (Fixtures.bundle 2) ∧
  console w' = console w ∧
  widgets (panel (this w')) = widgets (panel (this w)) ∧
  get_model_calls (calls w') = get_model_calls (calls w) + 2.
Proof.
  apply (retry_stays_armed_while_restoring
           [Fixtures.restoring; Fixtures.restoring] (Fixtures.bundle 2)
           (fst (renderModel Fixtures.restoring (Fixtures.bundle 2) Fixtures.bound))
           0 2).
  - vm_compute. reflexivity.
  - vm_compute. reflexivity.
  - vm_compute. discriminate.
  - vm_compute. reflexivity.
  - repeat (constructor;
            [split; [exists Fixtures.not_found; reflexivity | reflexivity] |]).
    constructor.
Defined.

(** ** Binding a manager again *)

(** Short of a dispose, no event drops a connection to a [restored]
    signal. *)
Lemma exec_slots (w : World) (op : Op) (mg : ManagerRef) :
  is_dispose op = false →
  mg ∈ restoredSlots w → mg ∈ restoredSlots (exec w op).
Proof.
  intros Hop Hin. destruct op as [value|env model|env|widget|]; cbn [exec].
  - rewrite set_manager_slots. apply connect_restored_mono, Hin.
  - destruct (renderModel_frame env model w) as (_ & _ & -> & _). exact Hin.
  - destruct (restored_notified_frame env w) as (_ & _ & -> & _). exact Hin.
  - unfold emit_disposed. rewrite disposed_closures_slots. exact Hin.
  - discriminate Hop.
Qed.

Lemma execs_slots (ops : list Op) (w : World) (mg : ManagerRef) :
  no_dispose ops = true →
  mg ∈ restoredSlots w → mg ∈ restoredSlots (execs ops w).
Proof.
  revert w. induction ops as [|op ops IH]; intros w Hno Hin; [exact Hin |].
  cbn [no_dispose forallb] in Hno. apply andb_prop in Hno as [Hop Hno].
  cbn [execs foldl]. apply IH; [exact Hno |].
  apply exec_slots; [| exact Hin].
  destruct (is_dispose op); [discriminate Hop | reflexivity].
Qed.

(** C8, as the code has it: once the delegate is resolved, calling the
    setter again does not change the manager it resolves to: after any
    events short of a dispose and a second call of the setter the delegate
    still holds the first manager, and a render waiting for the manager
    resumes with the first one.  Every call of the setter calls [connect] on
    the [restored] signal of the manager it is given, so the adapter is
    connected to the first and to the second manager afterwards; the call
    adds a connection when the adapter was not connected to that manager
    yet, and adds none when it was: setting the same manager again leaves
    the connections as they were. *)
Theorem second_binding_keeps_first_manager
    (w : World) (first second : ManagerRef) (between : list Op) :
  _manager (this w) = Some Pending →
  no_dispose between = true →
  let w1 := fst (set_manager first w) in
  let w2 := execs between w1 in
  let w3 := fst (set_manager second w2) in
  _manager (this w1) = Some (Fulfilled first) ∧
  _manager (this w3) = Some (Fulfilled first) ∧
  snd (set_manager second w2) = None ∧
  (∀ (env : Env) (model : IMimeModel) (source : option loc),
     step env (AwaitManager model source) w3
       = after_manager first model source w3) ∧
  first ∈ restoredSlots w1 ∧
  first ∈ restoredSlots w3 ∧
  second ∈ restoredSlots w3 ∧
  (second ∉ restoredSlots w2 → restoredSlots w3 = restoredSlots w2 ++ [second]) ∧
  (second ∈ restoredSlots w2 → restoredSlots w3 = restoredSlots w2) ∧
  (second = first → restoredSlots w3 = restoredSlots w2).
Proof.
  intros Hm Hno w1 w2 w3.
  assert (H1 : _manager (this w1) = Some (Fulfilled first)).
  { subst w1. rewrite set_manager_field_after, Hm. reflexivity. }
  assert (H2 : _manager (this w2) = Some (Fulfilled first))
    by (apply execs_fulfilled; assumption).
  assert (H3 : _manager (this w3) = Some (Fulfilled first)).
  { subst w3. rewrite set_manager_field_after, H2. reflexivity. }
  assert (Hfirst1 : first ∈ restoredSlots w1).
  { subst w1. rewrite set_manager_slots. apply connect_restored_elem. }
  assert (Hfirst2 : first ∈ restoredSlots w2)
    by (apply execs_slots; assumption).
  assert (Hadd : second ∉ restoredSlots w2 →
                 restoredSlots w3 = restoredSlots w2 ++ [second]).
  { intros Hnot. subst w3. rewrite set_manager_slots.
    cbn [restoredSlots connect_restored].
    rewrite bool_decide_eq_false_2 by exact Hnot. reflexivity. }
  assert (Hsame : second ∈ restoredSlots w2 → restoredSlots w3 = restoredSlots w2).
  { intros Hin. subst w3. rewrite set_manager_slots.
    cbn [restoredSlots connect_restored].
    rewrite bool_decide_eq_true_2 by exact Hin. reflexivity. }
  split; [exact H1 |]. split; [exact H3 |].
  split; [rewrite (set_manager_live _ _ _ H2); reflexivity |].
  split; [intros env model source; apply step_manager_fulfilled; exact H3 |].
  split; [exact Hfirst1 |].
  split; [subst w3; rewrite set_manager_slots;
          apply connect_restored_mono, Hfirst2 |].
  split; [subst w3; rewrite set_manager_slots; apply connect_restored_elem |].
  split; [exact Hadd |]. split; [exact Hsame |].
  intros ->. apply Hsame, Hfirst2.
Qed.

Lemma second_binding_keeps_first_manager_witness :
  let w1 := fst (set_manager 0 Fixtures.unbound) in
  let w2 := execs [DoRenderModel Fixtures.restoring (Fixtures.bundle 2)] w1 in
  let w3 := fst (set_manager 0 w2) in
  _manager (this w1) = Some (Fulfilled 0) ∧
  _manager (this w3) = Some (Fulfilled 0) ∧
  snd (set_manager 0 w2) = None ∧
  (∀ (env : Env) (model : IMimeModel) (source : option loc),
     step env (AwaitManager model source) w3 = after_manager 0 model source w3) ∧
  0 ∈ restoredSlots w1 ∧
  0 ∈ restoredSlots w3 ∧
  0 ∈ restoredSlots w3 ∧
  (0 ∉ restoredSlots w2 → restoredSlots w3 = restoredSlots w2 ++ [0]) ∧
  (0 ∈ restoredSlots w2 → restoredSlots w3 = restoredSlots w2) ∧
  (0 = 0 → restoredSlots w3 = restoredSlots w2).
Proof.
  apply (second_binding_keeps_first_manager Fixtures.unbound 0 0
           [DoRenderModel Fixtures.restoring (Fixtures.bundle 2)]);
    reflexivity.
Defined.

(** C8, as stated, fails: an adapter constructed with manager 0 is connected
    to that manager's [restored] signal once, and setting manager 0 again
    does not connect it a second time, while setting manager 1 does add a
    connection. *)
Lemma rebinding_same_manager_adds_no_subscription :
  restoredSlots Fixtures.bound = [0] ∧
  restoredSlots (fst (set_manager 0 Fixtures.bound)) = [0] ∧
  restoredSlots (fst (set_manager 0 Fixtures.bound))
    ≠ restoredSlots Fixtures.bound ++ [0] ∧
  restoredSlots (fst (set_manager 1 Fixtures.bound)) = [0; 1].
Proof. repeat split; vm_compute; solve [reflexivity | discriminate]. Qed.
